(** * kata-shim: the entry point (main.go)

    A shallow embedding of [main.go]: [setThreads], [initLogger],
    [realMain] and [main], written over a small monad that carries the
    package-level variables, the deferred calls of the running function
    and the calls made at the boundary of the file (logger, tracer,
    terminal, agent), in the order they are made.

    Functions of the package that [main.go] calls but does not define
    ([newShim], [setupTerminal], [proxyStdio], [shim.wait], ...) are
    fields of a [World]: every theorem quantifies over what they answer.
    A call made by the body of [realMain] returns or panics; the clean-up
    calls ([span.Finish], [signal.Stop], [restoreTerminal],
    [stopTracing]) return.  A log event is the call handed to the logger:
    filtering by level and the destination are the logger's; the one
    level that changes the control flow is Fatal, which ends the
    process. *)

From Stdlib Require Import ZArith List String Ascii Bool Lia.
Import ListNotations.
Local Open Scope string_scope.
Local Open Scope Z_scope.

(** ** Constants *)

Definition shimName : string := "kata-shim".
Definition exitFailure : Z := 1.
Definition exitSuccess : Z := 0.
Definition maxThreads : Z := 6.

(** ** Values exchanged with the collaborators *)

Definition error := string.

(** A Go result [(T, error)]. *)
Inductive result (A : Type) : Type :=
| Ok (a : A)
| Err (e : error).
Arguments Ok {A} a.
Arguments Err {A} e.

(** What a call does to the calling goroutine: it returns, or it panics
    with a value. *)
Inductive outcome (A : Type) : Type :=
| Returns (a : A)
| Panics (v : string).
Arguments Returns {A} a.
Arguments Panics {A} v.

(** logrus levels. *)
Inductive Level := PanicLevel | FatalLevel | ErrorLevel | WarnLevel | InfoLevel | DebugLevel.

(** A value of a structured log field. *)
Inductive fieldval :=
| FStr (s : string)
| FBool (b : bool)
| FInt (z : Z).

Definition Fields := list (string * fieldval).

(** The terminal attributes [setupTerminal] hands back for the restore. *)
Inductive termios := Termios (saved : Z).

(** The command line after [flag.Parse]. *)
Record Flags := {
  f_debug : bool;
  f_trace : bool;
  f_version : bool;
  f_log : string;
  f_agent : string;
  f_container : string;
  f_execID : string;
  f_terminal : bool;
  f_proxyExitCode : bool
}.

(** The defaults the flags are declared with. *)
Definition default_flags : Flags := {|
  f_debug := false;
  f_trace := false;
  f_version := false;
  f_log := "warn";
  f_agent := EmptyString;
  f_container := EmptyString;
  f_execID := EmptyString;
  f_terminal := false;
  f_proxyExitCode := true
|}.

(** Everything outside [main.go] that a run depends on. *)
Record World := {
  flags : Flags;
  (* the [version] variable, populated at build time *)
  version : string;
  Getenv : string -> string;
  NumCPU : Z;
  (* GOMAXPROCS as the runtime set it at start-up *)
  InitialProcs : Z;
  Getpid : Z;
  StdinFd : Z;
  ParseLevel : string -> result Level;
  NewSyslogHook : result unit;
  createTracer : string -> outcome (result unit);
  newShim : string -> string -> string -> outcome (result unit);
  setupTerminal : Z -> outcome (result termios);
  handleSignals : outcome unit;
  trace_span : string -> outcome unit;
  (* the copy tasks [proxyStdio] starts, each by the chunks it copies *)
  proxyStdio : bool -> outcome (list nat);
  (* the exit code is an int32 that [realMain] converts with [int]: the
     value is kept *)
  shim_wait : outcome (result Z)
}.

(** ** Calls observed at the boundary *)

Inductive event :=
| EvGOMAXPROCS (n : Z)
| EvPrintf (s : string)
| EvLog (l : Level) (fields : Fields) (msg : string)
| EvSetLevel (l : Level)
| EvAddHook
| EvCreateTracer (name : string)
| EvStartSpan (name : string)
| EvSpanFinish (name : string)
| EvSetTag (span key value : string)
| EvNewShim (addr container execID : string)
| EvSetupTerminal (fd : Z)
(* [setupTerminal] has returned the attributes it saved: raw mode is on *)
| EvRawMode (fd : Z) (t : termios)
| EvRestoreTerminal (fd : Z) (t : termios)
| EvHandleSignals
| EvSignalStop
| EvTrace (name : string)
| EvProxyStdio (terminal : bool)
| EvWgWait
| EvShimWait
(* the call before has panicked with [v] *)
| EvPanic (v : string)
| EvHandlePanic (v : string)
| EvStopTracing
| EvExit (code : Z).

(** A deferred call, with its arguments evaluated at the [defer]. *)
Inductive deferred :=
| DSpanFinish (name : string)
| DRestoreTerminal (fd : Z) (t : termios)
| DSignalStop
| DHandlePanic.

(** ** Program state *)

Record State := {
  debug : bool;
  crashOnError : bool;
  tracing : bool;
  shimLog : option Fields;
  gomaxprocs : Z;
  defers : list deferred;
  events : list event
}.

Definition init_state (w : World) : State := {|
  debug := false;
  crashOnError := false;
  tracing := false;
  shimLog := None;
  gomaxprocs := InitialProcs w;
  defers := [];
  events := []
|}.

Definition set_debug (b : bool) (s : State) : State :=
  {| debug := b; crashOnError := crashOnError s; tracing := tracing s;
     shimLog := shimLog s; gomaxprocs := gomaxprocs s; defers := defers s;
     events := events s |}.

Definition set_crashOnError (b : bool) (s : State) : State :=
  {| debug := debug s; crashOnError := b; tracing := tracing s;
     shimLog := shimLog s; gomaxprocs := gomaxprocs s; defers := defers s;
     events := events s |}.

Definition set_tracing (b : bool) (s : State) : State :=
  {| debug := debug s; crashOnError := crashOnError s; tracing := b;
     shimLog := shimLog s; gomaxprocs := gomaxprocs s; defers := defers s;
     events := events s |}.

Definition set_shimLog (l : option Fields) (s : State) : State :=
  {| debug := debug s; crashOnError := crashOnError s; tracing := tracing s;
     shimLog := l; gomaxprocs := gomaxprocs s; defers := defers s;
     events := events s |}.

Definition set_gomaxprocs (n : Z) (s : State) : State :=
  {| debug := debug s; crashOnError := crashOnError s; tracing := tracing s;
     shimLog := shimLog s; gomaxprocs := n; defers := defers s;
     events := events s |}.

Definition set_defers (ds : list deferred) (s : State) : State :=
  {| debug := debug s; crashOnError := crashOnError s; tracing := tracing s;
     shimLog := shimLog s; gomaxprocs := gomaxprocs s; defers := ds;
     events := events s |}.

Definition emit (e : event) (s : State) : State :=
  {| debug := debug s; crashOnError := crashOnError s; tracing := tracing s;
     shimLog := shimLog s; gomaxprocs := gomaxprocs s; defers := defers s;
     events := (events s ++ [e])%list |}.

(** ** Control flow: return, panic, process exit *)

Inductive status (A : Type) : Type :=
| Normal (a : A)
| Panicking (v : string)
| Exited (code : Z).
Arguments Normal {A} a.
Arguments Panicking {A} v.
Arguments Exited {A} code.

Definition M (A : Type) : Type := State -> status A * State.

Definition ret {A} (a : A) : M A := fun s => (Normal a, s).

Definition bind {A B} (m : M A) (k : A -> M B) : M B :=
  fun s =>
    match m s with
    | (Normal a, s') => k a s'
    | (Panicking v, s') => (Panicking v, s')
    | (Exited c, s') => (Exited c, s')
    end.

Declare Scope go_scope.
Delimit Scope go_scope with go.
Notation "x <- m ;; k" := (bind m (fun x => k))
  (at level 61, m at next level, right associativity) : go_scope.
Notation "m ;; k" := (bind m (fun _ => k))
  (at level 61, right associativity) : go_scope.
Local Open Scope go_scope.

Definition modify (f : State -> State) : M unit := fun s => (Normal tt, f s).
Definition gets {A} (f : State -> A) : M A := fun s => (Normal (f s), s).
Definition tell (e : event) : M unit := modify (emit e).

(** A call into the package or a library: the call is logged, then it
    returns its answer or panics. *)
Definition call {A} (e : event) (o : outcome A) : M A :=
  fun s =>
    match o with
    | Returns a => (Normal a, emit e s)
    | Panics v => (Panicking v, emit (EvPanic v) (emit e s))
    end.

(** [os.Exit]: the process ends here, deferred calls do not run. *)
Definition os_Exit {A} (code : Z) : M A :=
  fun s => (Exited code, emit (EvExit code) s).

(** [defer f(args)]: pushed on the frame of the running function. *)
Definition defer (d : deferred) : M unit :=
  modify (fun s => set_defers (d :: defers s) s).

(** One deferred call.  [handlePanic] (not among the sources) is the
    recovery hook of [main]: it sees the panic value when there is one,
    what it then does with the process is its own business. *)
Definition run_deferred {A} (d : deferred) (r : status A) (s : State) : State :=
  match d with
  | DSpanFinish n => emit (EvSpanFinish n) s
  | DRestoreTerminal fd t => emit (EvRestoreTerminal fd t) s
  | DSignalStop => emit EvSignalStop s
  | DHandlePanic =>
      match r with
      | Panicking v => emit (EvHandlePanic v) s
      | _ => s
      end
  end.

Fixpoint run_defers {A} (ds : list deferred) (r : status A) (s : State) : State :=
  match ds with
  | [] => s
  | d :: ds' => run_defers ds' r (run_deferred d r s)
  end.

(** Leaving a function: its deferred calls run, last pushed first, when
    the body has returned or panicked, not when the process has exited;
    the frame of the caller is current again. *)
Definition leave_frame {A} (outer : list deferred) (rs : status A * State)
    : status A * State :=
  match rs with
  | (Exited c, s') => (Exited c, s')
  | (r, s') => (r, set_defers outer (run_defers (defers s') r (set_defers [] s')))
  end.

(** A function body with its own frame of deferred calls. *)
Definition with_frame {A} (body : M A) : M A :=
  fun s => leave_frame (defers s) (body (set_defers [] s)).

(** ** The logger *)

(** [logger()]: the fields of [shimLog] when it is set, those of a fresh
    entry of the standard logger otherwise. *)
Definition logger : M Fields :=
  gets (fun s => match shimLog s with Some f => f | None => [] end).

(** [entry.WithFields(fs).<Level>(msg)] for the levels that return. *)
Definition log (l : Level) (fs : Fields) (msg : string) : M unit :=
  base <- logger ;;
  tell (EvLog l (base ++ fs)%list msg).

(** [entry.Fatal(msg)]: logrus logs, then exits the process with 1. *)
Definition log_Fatal {A} (fs : Fields) (msg : string) : M A :=
  base <- logger ;;
  tell (EvLog FatalLevel (base ++ fs)%list msg) ;;
  os_Exit 1.

Definition initLogger (w : World) (logLevel container execID : string)
    (announceFields : Fields) : M (option error) :=
  modify (set_shimLog (Some [("name", FStr shimName);
                             ("pid", FInt (Getpid w));
                             ("source", FStr "shim");
                             ("container", FStr container);
                             ("exec-id", FStr execID)])) ;;
  match ParseLevel w logLevel with
  | Err e => ret (Some e)
  | Ok level =>
      tell (EvSetLevel level) ;;
      match NewSyslogHook w with
      | Ok _ => tell EvAddHook
      | Err _ => ret tt
      end ;;
      log InfoLevel announceFields "announce" ;;
      ret None
  end.

(** ** setThreads *)

(** [runtime.GOMAXPROCS(n)] changes the setting when [n >= 1]. *)
Definition runtime_GOMAXPROCS (n : Z) : M unit :=
  tell (EvGOMAXPROCS n) ;;
  if n <? 1 then ret tt else modify (set_gomaxprocs n).

Definition setThreads (w : World) : M unit :=
  if String.eqb (Getenv w "GOMAXPROCS") EmptyString then
    if NumCPU w >? maxThreads then runtime_GOMAXPROCS maxThreads
    else ret tt
  else ret tt.

(** ** realMain *)

Definition nl : string := String (ascii_of_nat 10) EmptyString.

(** [flag.Parse], when it returns: [debug] and [tracing] are package
    variables.  On a command line that it rejects, and on [-h],
    [flag.Parse] ends the process itself (the default flag set exits on
    error) before anything below is run: [flags] is the command line of a
    run in which it has returned. *)
Definition flag_Parse (w : World) : M unit :=
  modify (fun s => set_tracing (f_trace (flags w)) (set_debug (f_debug (flags w)) s)).

(** Lines 189-226: signals, stdio proxying, the join and the remote wait. *)
Definition realMain_session (w : World) : M Z :=
  let f := flags w in
  call EvHandleSignals (handleSignals w) ;;
  defer DSignalStop ;;
  call (EvTrace "proxyStdio") (trace_span w "proxyStdio") ;;
  tell (EvSetTag "proxyStdio" "category" "interactive") ;;
  call (EvProxyStdio (f_terminal f)) (proxyStdio w (f_terminal f)) ;;
  tell EvWgWait ;;
  tell (EvSpanFinish "proxyStdio") ;;
  r <- call EvShimWait (shim_wait w) ;;
  match r with
  | Err e =>
      log ErrorLevel [("error", FStr e); ("exec-id", FStr (f_execID f))]
          "failed waiting for process" ;;
      ret exitFailure
  | Ok exitcode =>
      if f_proxyExitCode f then
        log InfoLevel [("exitcode", FInt exitcode)] "using shim to proxy exit code" ;;
        if negb (exitcode =? 0) then ret exitcode
        else ret exitSuccess
      else ret exitSuccess
  end.

(** Lines 161-187, then the session: tracer and root span, the shim,
    the terminal. *)
Definition realMain_setup (w : World) : M Z :=
  let f := flags w in
  tr <- call (EvCreateTracer shimName) (createTracer w shimName) ;;
  match tr with
  | Err e => log_Fatal [("error", FStr e)] "failed to setup tracing"
  | Ok _ =>
      tell (EvStartSpan "realMain") ;;
      defer (DSpanFinish "realMain") ;;
      sh <- call (EvNewShim (f_agent f) (f_container f) (f_execID f))
                 (newShim w (f_agent f) (f_container f) (f_execID f)) ;;
      match sh with
      | Err e =>
          log ErrorLevel [("error", FStr e)] "failed to create new shim" ;;
          ret exitFailure
      | Ok _ =>
          if f_terminal f then
            tm <- call (EvSetupTerminal (StdinFd w)) (setupTerminal w (StdinFd w)) ;;
            match tm with
            | Err e =>
                log ErrorLevel [("error", FStr e)] "failed to set raw terminal" ;;
                ret exitFailure
            | Ok t =>
                tell (EvRawMode (StdinFd w) t) ;;
                defer (DRestoreTerminal (StdinFd w) t) ;;
                realMain_session w
            end
          else realMain_session w
      end
  end.

(** Lines 111-159, then the rest: threads, flags, version, debug mode,
    the emptiness check, the logger. *)
Definition realMain_body (w : World) : M Z :=
  let f := flags w in
  setThreads w ;;
  flag_Parse w ;;
  if f_version f then
    tell (EvPrintf (shimName ++ " version " ++ version w ++ nl)) ;;
    ret exitSuccess
  else
    (if String.eqb (f_log f) "debug" then modify (set_debug true) else ret tt) ;;
    d <- gets debug ;;
    (if d then modify (set_crashOnError true) else ret tt) ;;
    if String.eqb (f_agent f) EmptyString
       || String.eqb (f_container f) EmptyString
       || String.eqb (f_execID f) EmptyString
    then
      log ErrorLevel [("agentAddr", FStr (f_agent f));
                      ("container", FStr (f_container f));
                      ("exec-id", FStr (f_execID f))]
          "container ID, exec ID and agent socket endpoint must be set" ;;
      ret exitFailure
    else
      d <- gets debug ;;
      t <- gets tracing ;;
      err <- initLogger w (f_log f) (f_container f) (f_execID f)
               [("version", FStr (version w));
                ("debug", FBool d);
                ("log-level", FStr (f_log f));
                ("agent-socket", FStr (f_agent f));
                ("terminal", FBool (f_terminal f));
                ("proxy-exit-code", FBool (f_proxyExitCode f));
                ("tracing", FBool t)] ;;
      match err with
      | Some e =>
          log ErrorLevel [("error", FStr e); ("loglevel", FStr (f_log f))]
              "invalid log level" ;;
          ret exitFailure
      | None => realMain_setup w
      end.

Definition realMain (w : World) : M Z := with_frame (realMain_body w).

(** ** main *)

Definition stopTracing : M unit := tell EvStopTracing.

Definition main (w : World) : M unit :=
  with_frame (
    defer DHandlePanic ;;
    exitCode <- realMain w ;;
    stopTracing ;;
    os_Exit exitCode).

(** A run of the process from its initial state. *)
Definition run (w : World) : status unit * State := main w (init_state w).
Definition run_realMain (w : World) : status Z * State := realMain w (init_state w).

Definition final (w : World) : State := snd (run w).
Definition exit_status (w : World) : status unit := fst (run w).
Definition trace_of (w : World) : list event := events (final w).

(** ** The copy tasks and the join barrier

    The calls of the main goroutine, in the order [main] makes them, run
    interleaved with the copy tasks.  [wg.Wait] is the one call that the
    tasks hold back: it returns when the counter of the WaitGroup is
    zero.  Each task was added to the counter when it was started and
    takes itself off when it has seen end-of-stream or an error. *)

Inductive task :=
| Copying (chunks : nat)
| Finished.

Record Conf := {
  c_done : list event;
  c_todo : list event;
  c_wg : nat;
  c_tasks : list task
}.

Inductive action :=
| Main
| Task (i : nat).

(** Modelled from the spec: proxyStdio (shim.go is not among the sources)
    starts one concurrent copy task per active direction and registers
    each with the WaitGroup it is given; a task copies until its source
    reports end-of-stream or an error.  These are the tasks a call of the
    main goroutine starts. *)
Definition spawned (w : World) (e : event) : list nat :=
  match e with
  | EvProxyStdio t =>
      match proxyStdio w t with
      | Returns l => l
      | Panics _ => []
      end
  | _ => []
  end.

Fixpoint set_nth {A} (i : nat) (x : A) (l : list A) : list A :=
  match l, i with
  | [], _ => []
  | _ :: l', O => x :: l'
  | y :: l', S i' => y :: set_nth i' x l'
  end.

Definition step (w : World) (a : action) (c : Conf) : option Conf :=
  match a with
  | Main =>
      match c_todo c with
      | [] => None
      | EvWgWait :: rest =>
          if Nat.eqb (c_wg c) 0 then
            Some {| c_done := (c_done c ++ [EvWgWait])%list; c_todo := rest;
                    c_wg := c_wg c; c_tasks := c_tasks c |}
          else None
      | e :: rest =>
          Some {| c_done := (c_done c ++ [e])%list; c_todo := rest;
                  c_wg := (c_wg c + List.length (spawned w e))%nat;
                  c_tasks := (c_tasks c ++ List.map Copying (spawned w e))%list |}
      end
  | Task i =>
      match nth_error (c_tasks c) i with
      | Some (Copying (S k)) =>
          Some {| c_done := c_done c; c_todo := c_todo c; c_wg := c_wg c;
                  c_tasks := set_nth i (Copying k) (c_tasks c) |}
      | Some (Copying O) =>
          Some {| c_done := c_done c; c_todo := c_todo c;
                  c_wg := Nat.pred (c_wg c);
                  c_tasks := set_nth i Finished (c_tasks c) |}
      | _ => None
      end
  end.

Fixpoint exec (w : World) (acts : list action) (c : Conf) : option Conf :=
  match acts with
  | [] => Some c
  | a :: acts' =>
      match step w a c with
      | Some c' => exec w acts' c'
      | None => None
      end
  end.

Definition conf0 (w : World) : Conf :=
  {| c_done := []; c_todo := trace_of w; c_wg := 0%nat; c_tasks := [] |}.

Definition unfinished (l : list task) : nat :=
  List.length (List.filter (fun t => match t with Copying _ => true | Finished => false end) l).

(** Where the main goroutine stands with respect to the stdio phase. *)
Inductive phase := BeforeProxy | Proxying | Joined | Waited.

Definition phase_step (t : bool) (q : phase) (e : event) : option phase :=
  match e, q with
  | EvProxyStdio t', BeforeProxy => if Bool.eqb t t' then Some Proxying else None
  | EvProxyStdio _, _ => None
  | EvWgWait, Proxying => Some Joined
  | EvWgWait, _ => None
  | EvShimWait, Joined => Some Waited
  | EvShimWait, _ => None
  | _, _ => Some q
  end.

Fixpoint phase_run (t : bool) (q : phase) (l : list event) : option phase :=
  match l with
  | [] => Some q
  | e :: l' =>
      match phase_step t q e with
      | Some q' => phase_run t q' l'
      | None => None
      end
  end.

Definition phased (t : bool) (l : list event) : bool :=
  match phase_run t BeforeProxy l with
  | Some _ => true
  | None => false
  end.

Definition all_finished (l : list task) : Prop := Forall (fun x => x = Finished) l.

(** What holds of the tasks in each phase of the main goroutine. *)
Definition tasks_of_phase (w : World) (q : phase) (c : Conf) : Prop :=
  match q with
  | BeforeProxy => c_tasks c = []
  | Proxying =>
      List.length (c_tasks c)
      = List.length (spawned w (EvProxyStdio (f_terminal (flags w))))
  | Joined | Waited =>
      List.length (c_tasks c)
      = List.length (spawned w (EvProxyStdio (f_terminal (flags w))))
      /\ unfinished (c_tasks c) = 0%nat
  end.

Definition join_inv (w : World) (c : Conf) : Prop :=
  (c_done c ++ c_todo c)%list = trace_of w
  /\ c_wg c = unfinished (c_tasks c)
  /\ exists q, phase_run (f_terminal (flags w)) BeforeProxy (c_done c) = Some q
               /\ tasks_of_phase w q c.

(** ** Predicates on traces *)

Definition is_acquire (e : event) : bool :=
  match e with EvRawMode _ _ => true | _ => false end.
Definition is_restore (e : event) : bool :=
  match e with EvRestoreTerminal _ _ => true | _ => false end.
Definition is_wait (e : event) : bool :=
  match e with EvShimWait => true | _ => false end.
Definition is_connect (e : event) : bool :=
  match e with EvNewShim _ _ _ => true | _ => false end.
Definition is_setup (e : event) : bool :=
  match e with EvSetupTerminal _ => true | _ => false end.
Definition is_stopTracing (e : event) : bool :=
  match e with EvStopTracing => true | _ => false end.
Definition is_session (e : event) : bool :=
  match e with
  | EvHandleSignals | EvTrace _ | EvProxyStdio _ | EvWgWait | EvShimWait => true
  | _ => false
  end.

(** The calls of lines 111-159: threads, version, logger. *)
Definition is_prelude (e : event) : bool :=
  match e with
  | EvGOMAXPROCS _ | EvPrintf _ | EvLog _ _ _ | EvSetLevel _ | EvAddHook => true
  | _ => false
  end.

Definition count (p : event -> bool) (l : list event) : nat :=
  List.length (List.filter p l).

(** What follows the first call that satisfies [p]. *)
Fixpoint after (p : event -> bool) (l : list event) : list event :=
  match l with
  | [] => []
  | e :: l' => if p e then l' else after p l'
  end.

(** The restore that undoes an acquisition. *)
Definition released (e : event) : event :=
  match e with
  | EvRawMode fd t => EvRestoreTerminal fd t
  | _ => e
  end.

(** What [main] does with the result of the body of [realMain]: the
    deferred calls of [realMain], then lines 237-239. *)
Definition main_rest (rs : status Z * State) : status unit * State :=
  leave_frame []
    (match leave_frame [DHandlePanic] rs with
     | (Normal c, s) => bind stopTracing (fun _ => os_Exit c) s
     | (Panicking v, s) => (Panicking v, s)
     | (Exited c, s) => (Exited c, s)
     end).

(** ** Sample worlds *)

Definition sample_flags (dbg ver : bool) (lvl agent : string) (term proxy : bool)
    : Flags := {|
  f_debug := dbg;
  f_trace := false;
  f_version := ver;
  f_log := lvl;
  f_agent := agent;
  f_container := "c1";
  f_execID := "e1";
  f_terminal := term;
  f_proxyExitCode := proxy
|}.

(** logrus.ParseLevel on the names the [-log] flag documents. *)
Definition sample_ParseLevel (s : string) : result Level :=
  if String.eqb s "debug" then Ok DebugLevel
  else if String.eqb s "info" then Ok InfoLevel
  else if String.eqb s "warn" then Ok WarnLevel
  else if String.eqb s "error" then Ok ErrorLevel
  else if String.eqb s "fatal" then Ok FatalLevel
  else if String.eqb s "panic" then Ok PanicLevel
  else Err "not a valid logrus Level".

(** A host with [ncpu] cores and no GOMAXPROCS in the environment, an
    agent that accepts the connection, and three copy tasks. *)
Definition sample_world (fl : Flags) (ncpu : Z)
    (tracer : outcome (result unit))
    (tty : outcome (result termios))
    (wait : outcome (result Z)) : World := {|
  flags := fl;
  version := "unknown";
  Getenv := fun _ => EmptyString;
  NumCPU := ncpu;
  InitialProcs := ncpu;
  Getpid := 4242;
  StdinFd := 0;
  ParseLevel := sample_ParseLevel;
  NewSyslogHook := Ok tt;
  createTracer := fun _ => tracer;
  newShim := fun _ _ _ => Returns (Ok tt);
  setupTerminal := fun _ => tty;
  handleSignals := Returns tt;
  trace_span := fun _ => Returns tt;
  proxyStdio := fun _ => Returns [2; 1; 0]%nat;
  shim_wait := wait
|}.

(** A complete session on a terminal or on pipes. *)
Definition w_session (term proxy : bool) (wait : outcome (result Z)) : World :=
  sample_world (sample_flags false false "warn" "sock://A" term proxy) 64
    (Returns (Ok tt)) (Returns (Ok (Termios 7))) wait.

(** [-terminal] with a standard input that is no terminal. *)
Definition w_notty : World :=
  sample_world (sample_flags false false "warn" "sock://A" true true) 64
    (Returns (Ok tt)) (Returns (Err "inappropriate ioctl for device"))
    (Returns (Ok 0)).

(** No agent address, without and with [-version]. *)
Definition w_noconfig : World :=
  sample_world (sample_flags false false "warn" EmptyString false true) 64
    (Returns (Ok tt)) (Returns (Ok (Termios 7))) (Returns (Ok 0)).
Definition w_version_noconfig : World :=
  sample_world (sample_flags false true "warn" EmptyString false true) 64
    (Returns (Ok tt)) (Returns (Ok (Termios 7))) (Returns (Ok 0)).

(** The tracer cannot be set up. *)
Definition w_tracer_fails : World :=
  sample_world (sample_flags false false "warn" "sock://A" false true) 64
    (Returns (Err "no tracer")) (Returns (Ok (Termios 7))) (Returns (Ok 0)).

(** [-log debug], without and with [-version]; [-debug -version]. *)
Definition w_log_debug : World :=
  sample_world (sample_flags false false "debug" "sock://A" false true) 64
    (Returns (Ok tt)) (Returns (Ok (Termios 7))) (Returns (Ok 0)).
Definition w_version_log_debug : World :=
  sample_world (sample_flags false true "debug" "sock://A" false true) 64
    (Returns (Ok tt)) (Returns (Ok (Termios 7))) (Returns (Ok 0)).
Definition w_version_debug : World :=
  sample_world (sample_flags true true "warn" "sock://A" false true) 64
    (Returns (Ok tt)) (Returns (Ok (Termios 7))) (Returns (Ok 0)).

(** The flags left at their defaults. *)
Definition w_default : World :=
  sample_world default_flags 4
    (Returns (Ok tt)) (Returns (Ok (Termios 7))) (Returns (Ok 0)).

(** Thirteen calls of [main] up to [proxyStdio], the three copy tasks
    interleaved, then [wg.Wait], the span and [shim.wait]. *)
Definition sample_schedule : list action :=
  (List.repeat Main 13
   ++ [Task 2; Task 0; Task 1; Task 0; Task 1; Task 0]
   ++ [Main; Main; Main])%list.

(** ** What the prelude logs and calls *)

(** The fields [initLogger] gives every entry of [shimLog]. *)
Definition shim_fields (w : World) : Fields :=
  [("name", FStr shimName);
   ("pid", FInt (Getpid w));
   ("source", FStr "shim");
   ("container", FStr (f_container (flags w)));
   ("exec-id", FStr (f_execID (flags w)))].

(** [debug] after lines 131-133. *)
Definition effective_debug (w : World) : bool :=
  String.eqb (f_log (flags w)) "debug" || f_debug (flags w).

(** [announceFields], lines 144-152. *)
Definition announce_fields (w : World) : Fields :=
  [("version", FStr (version w));
   ("debug", FBool (effective_debug w));
   ("log-level", FStr (f_log (flags w)));
   ("agent-socket", FStr (f_agent (flags w)));
   ("terminal", FBool (f_terminal (flags w)));
   ("proxy-exit-code", FBool (f_proxyExitCode (flags w)));
   ("tracing", FBool (f_trace (flags w)))].

(** The test of line 139. *)
Definition empty_config (w : World) : bool :=
  String.eqb (f_agent (flags w)) EmptyString
  || String.eqb (f_container (flags w)) EmptyString
  || String.eqb (f_execID (flags w)) EmptyString.

(** The calls of [setThreads] at the start of a run. *)
Definition threads_calls (w : World) : list event :=
  events (snd (setThreads w (init_state w))).

(** The syslog hook is added when it could be made. *)
Definition hook_calls (w : World) : list event :=
  match NewSyslogHook w with
  | Ok _ => [EvAddHook]
  | Err _ => []
  end.

(** The restore that the run has deferred when it reaches the session. *)
Definition restore_calls (w : World) : list event :=
  if f_terminal (flags w) then
    match setupTerminal w (StdinFd w) with
    | Returns (Ok t) => [EvRestoreTerminal (StdinFd w) t]
    | _ => []
    end
  else [].

Definition is_log (e : event) : bool :=
  match e with EvLog _ _ _ => true | _ => false end.
Definition is_announce (e : event) : bool :=
  match e with EvLog InfoLevel _ msg => String.eqb msg "announce" | _ => false end.
Definition is_panic (e : event) : bool :=
  match e with EvPanic _ => true | _ => false end.
Definition is_exit (e : event) : bool :=
  match e with EvExit _ => true | _ => false end.
Definition is_gomaxprocs (e : event) : bool :=
  match e with EvGOMAXPROCS _ => true | _ => false end.
Definition is_root_start (e : event) : bool :=
  match e with EvStartSpan n => String.eqb n "realMain" | _ => false end.
Definition is_root_finish (e : event) : bool :=
  match e with EvSpanFinish n => String.eqb n "realMain" | _ => false end.
Definition is_stdio_start (e : event) : bool :=
  match e with EvTrace n => String.eqb n "proxyStdio" | _ => false end.
Definition is_stdio_finish (e : event) : bool :=
  match e with EvSpanFinish n => String.eqb n "proxyStdio" | _ => false end.
Definition is_proxy (e : event) : bool :=
  match e with EvProxyStdio _ => true | _ => false end.
Definition is_handleSignals (e : event) : bool :=
  match e with EvHandleSignals => true | _ => false end.
Definition is_signalStop (e : event) : bool :=
  match e with EvSignalStop => true | _ => false end.
Definition is_createTracer (e : event) : bool :=
  match e with EvCreateTracer _ => true | _ => false end.

(** A log entry carries the fields [F], then its own. *)
Definition logged_with (F : Fields) (e : event) : Prop :=
  match e with
  | EvLog _ fs _ => exists extra, fs = (F ++ extra)%list
  | _ => True
  end.

(** More sample worlds: a log level logrus does not know, an agent that
    refuses the connection, a panic in [proxyStdio], GOMAXPROCS set. *)
Definition w_bad_level : World :=
  sample_world (sample_flags false false "verbose" "sock://A" false true) 64
    (Returns (Ok tt)) (Returns (Ok (Termios 7))) (Returns (Ok 0)).

Definition w_refused : World := {|
  flags := sample_flags false false "warn" "sock://A" true true;
  version := "unknown";
  Getenv := fun _ => EmptyString;
  NumCPU := 64;
  InitialProcs := 64;
  Getpid := 4242;
  StdinFd := 0;
  ParseLevel := sample_ParseLevel;
  NewSyslogHook := Err "no syslog";
  createTracer := fun _ => Returns (Ok tt);
  newShim := fun _ _ _ => Returns (Err "connection refused");
  setupTerminal := fun _ => Returns (Ok (Termios 7));
  handleSignals := Returns tt;
  trace_span := fun _ => Returns tt;
  proxyStdio := fun _ => Returns [2; 1; 0]%nat;
  shim_wait := Returns (Ok 0)
|}.

Definition w_proxy_panics : World := {|
  flags := sample_flags false false "warn" "sock://A" true true;
  version := "unknown";
  Getenv := fun _ => EmptyString;
  NumCPU := 64;
  InitialProcs := 64;
  Getpid := 4242;
  StdinFd := 0;
  ParseLevel := sample_ParseLevel;
  NewSyslogHook := Ok tt;
  createTracer := fun _ => Returns (Ok tt);
  newShim := fun _ _ _ => Returns (Ok tt);
  setupTerminal := fun _ => Returns (Ok (Termios 7));
  handleSignals := Returns tt;
  trace_span := fun _ => Returns tt;
  proxyStdio := fun _ => Panics "nil stream";
  shim_wait := Returns (Ok 0)
|}.

Definition w_env_set : World := {|
  flags := sample_flags false false "warn" "sock://A" false true;
  version := "unknown";
  Getenv := fun k => if String.eqb k "GOMAXPROCS" then "32" else EmptyString;
  NumCPU := 64;
  InitialProcs := 32;
  Getpid := 4242;
  StdinFd := 0;
  ParseLevel := sample_ParseLevel;
  NewSyslogHook := Ok tt;
  createTracer := fun _ => Returns (Ok tt);
  newShim := fun _ _ _ => Returns (Ok tt);
  setupTerminal := fun _ => Returns (Ok (Termios 7));
  handleSignals := Returns tt;
  trace_span := fun _ => Returns tt;
  proxyStdio := fun _ => Returns [2; 1; 0]%nat;
  shim_wait := Returns (Ok 0)
|}.

(** ** Proof automation: one case per path through the program *)

Ltac open_world w :=
  destruct w as [[dbg trc ver lvl agent cont eid term proxy]
                   vers genv ncpu procs pid fd PL hook CT NS ST HS TS PS SW];
  cbn [flags f_debug f_trace f_version f_log f_agent f_container f_execID
       f_terminal f_proxyExitCode version Getenv NumCPU InitialProcs Getpid
       StdinFd ParseLevel NewSyslogHook createTracer newShim setupTerminal
       handleSignals trace_span proxyStdio shim_wait] in *.

Ltac open_state s :=
  destruct s as [s_debug s_crash s_tracing s_log s_procs s_defers pre];
  cbn [debug crashOnError tracing shimLog gomaxprocs defers events] in *.

Ltac unfold_prelude H :=
  unfold realMain_body, initLogger, setThreads, runtime_GOMAXPROCS, flag_Parse,
    log, logger, tell, modify, gets, bind, ret, init_state, maxThreads in H.

Ltac unfold_setup H :=
  unfold main_rest, leave_frame, realMain_setup, realMain_session, stopTracing,
    log, log_Fatal, logger, call, os_Exit, defer, tell, modify, gets, bind, ret in H.

Ltac simpl_in H :=
  cbn -[String.eqb Z.gtb Z.eqb String.append realMain_setup] in H.

Ltac innermost x :=
  lazymatch x with
  | context [match ?y with _ => _ end] => innermost y
  | _ => x
  end.

(** The next answer the computation in [H] waits for. *)
Ltac split_in H :=
  match type of H with
  | context [match ?x with _ => _ end] =>
      let y := innermost x in
      lazymatch y with
      | realMain_setup _ _ => fail
      | _ => first [ is_var y; destruct y | destruct y eqn:? ]
      end
  end.

Ltac paths_in H := simpl_in H; repeat (split_in H; simpl_in H).

Ltac norm_events :=
  cbn [events fst snd debug crashOnError tracing shimLog gomaxprocs defers
       emit set_defers set_debug set_crashOnError set_tracing set_shimLog
       set_gomaxprocs];
  rewrite <- ?app_assoc; cbn [app].

(** What is known about the answers of the world is used first. *)
Ltac use_answers Hr :=
  repeat match goal with
         | H : ?x = Returns _ |- _ => is_var x; subst x
         | H : ?x = true |- _ => is_var x; subst x
         | H : ?x = false |- _ => is_var x; subst x
         | H : ?f _ = Returns _ |- _ => rewrite H in Hr; clear H
         | H : _ = true |- _ => rewrite H in Hr; clear H
         | H : _ = false |- _ => rewrite H in Hr; clear H
         end.

(** Case analysis on what follows the logger, from any state. *)
Ltac each_setup_of t w s r :=
  let Hr := fresh "Hr" in
  remember t as r eqn:Hr;
  open_state s;
  match goal with Hd : ?x = @nil deferred |- _ => subst x end;
  open_world w; unfold_setup Hr; simpl_in Hr; use_answers Hr; paths_in Hr;
  subst r; norm_events.

Ltac each_setup w s r := each_setup_of (main_rest (realMain_setup w s)) w s r.

(** Case analysis on lines 111-159. *)
Ltac each_prelude w r :=
  let Hr := fresh "Hr" in
  remember (realMain_body w (init_state w)) as r eqn:Hr;
  open_world w; unfold_prelude Hr; simpl_in Hr; use_answers Hr; paths_in Hr;
  subst r.

(** After the case analysis on the prelude: what the rest of the run
    keeps of the state, by the lemma [keeps], then computation. *)
Ltac finish_prelude keeps :=
  lazymatch goal with
  | |- context [main_rest (realMain_setup ?w ?s)] =>
      let ev := fresh "ev" in
      let He := fresh "He" in
      let Hd := fresh "Hd" in
      let Hc := fresh "Hc" in
      let Hg := fresh "Hg" in
      destruct (keeps w s eq_refl) as (ev & He & Hd & Hc & Hg);
      rewrite ?He, ?Hd, ?Hc, ?Hg; clear He Hd Hc Hg
  | |- _ => idtac
  end;
  cbn -[String.eqb Z.gtb Z.eqb String.append].

Ltac prelude_side := intros []; cbn; congruence.

(** What is known to panic. *)
Ltac use_panics Hr :=
  repeat match goal with
         | H : ?x = Panics _ |- _ => is_var x; subst x
         | H : ?f _ = Panics _ |- _ => rewrite H in Hr; clear H
         end.

(** As [each_setup], with what is known to panic used as well. *)
Ltac each_setup_panic w s r :=
  let Hr := fresh "Hr" in
  remember (main_rest (realMain_setup w s)) as r eqn:Hr;
  open_state s;
  match goal with Hd : ?x = @nil deferred |- _ => subst x end;
  open_world w; unfold_setup Hr; simpl_in Hr; use_answers Hr; use_panics Hr;
  paths_in Hr; subst r; norm_events.

(** ** The run, in two parts *)

Lemma run_unfold w : run w = main_rest (realMain_body w (init_state w)).
Proof. reflexivity. Qed.

Lemma run_realMain_unfold w :
  run_realMain w = leave_frame [] (realMain_body w (init_state w)).
Proof. reflexivity. Qed.

Lemma realMain_prelude (w : World) :
  (exists c s, realMain_body w (init_state w) = (Normal c, s)
     /\ defers s = [] /\ forallb is_prelude (events s) = true)
  \/ (exists s, realMain_body w (init_state w) = realMain_setup w s
     /\ defers s = [] /\ forallb is_prelude (events s) = true).
Proof.
  each_prelude w r.
  all: first [ left; do 2 eexists; split; [reflexivity|]; split; reflexivity
             | right; eexists; split; [reflexivity|]; split; reflexivity ].
Qed.

Lemma main_rest_normal c s :
  defers s = [] ->
  main_rest (Normal c, s)
  = (Exited c, emit (EvExit c) (emit EvStopTracing (set_defers [DHandlePanic] s))).
Proof.
  intros Hd. open_state s. subst. reflexivity.
Qed.

(** Every run is a prelude that ends the run, or a prelude followed by
    the set-up and the session. *)
Lemma run_split (w : World) :
  exists pre, forallb is_prelude pre = true
    /\ ((exists c s, run w = (Exited c, emit (EvExit c) (emit EvStopTracing
                                  (set_defers [DHandlePanic] s)))
                     /\ events s = pre)
        \/ (exists s, run w = main_rest (realMain_setup w s)
                      /\ defers s = [] /\ events s = pre)).
Proof.
  rewrite run_unfold.
  destruct (realMain_prelude w) as [(c & s & E & Hd & Hp)|(s & E & Hd & Hp)]; rewrite E.
  - exists (events s). split; [assumption|]. left. exists c, s.
    split; [now apply main_rest_normal | reflexivity].
  - exists (events s). split; [assumption|]. right. exists s. auto.
Qed.

(** ** The prelude makes none of the calls of the session *)

Lemma prelude_filter (p : event -> bool) l :
  (forall e, is_prelude e = true -> p e = false) ->
  forallb is_prelude l = true -> List.filter p l = [].
Proof.
  intros Hp. induction l as [|e l IH]; cbn; [reflexivity|].
  intros H. apply andb_prop in H as [He Hl].
  rewrite (Hp e He). auto.
Qed.

Lemma prelude_phase t l : forall q,
  forallb is_prelude l = true -> phase_run t q l = Some q.
Proof.
  induction l as [|e l IH]; intros q H; cbn in *; [reflexivity|].
  apply andb_prop in H as [He Hl].
  destruct e; try discriminate; cbn; auto.
Qed.

Lemma prelude_after (p : event -> bool) l ev :
  (forall e, is_prelude e = true -> p e = false) ->
  forallb is_prelude l = true -> after p (l ++ ev) = after p ev.
Proof.
  intros Hp. induction l as [|e l IH]; cbn; [reflexivity|].
  intros H. apply andb_prop in H as [He Hl].
  rewrite (Hp e He). auto.
Qed.

Lemma prelude_existsb (p : event -> bool) l :
  (forall e, is_prelude e = true -> p e = false) ->
  forallb is_prelude l = true -> existsb p l = false.
Proof.
  intros Hp. induction l as [|e l IH]; cbn; [reflexivity|].
  intros H. apply andb_prop in H as [He Hl].
  rewrite (Hp e He). auto.
Qed.

Lemma In_existsb (p : event -> bool) e l : p e = true -> In e l -> existsb p l = true.
Proof. intros Hp Hin. apply existsb_exists. eauto. Qed.

(** ** The order of the stdio phase in the calls of main *)

Lemma phase_run_app t l1 : forall q l2,
  phase_run t q (l1 ++ l2) =
  match phase_run t q l1 with
  | Some q' => phase_run t q' l2
  | None => None
  end.
Proof.
  induction l1 as [|e l1 IH]; intros q l2; cbn [phase_run app]; [reflexivity|].
  destruct (phase_step t q e); [apply IH | reflexivity].
Qed.

Lemma setup_phased (w : World) (s : State) :
  defers s = [] ->
  exists ev, events (snd (main_rest (realMain_setup w s))) = (events s ++ ev)%list
    /\ phased (f_terminal (flags w)) ev = true.
Proof.
  intros Hd. each_setup w s r.
  all: eexists; (split; [reflexivity|]); reflexivity.
Qed.

(** In every run the main goroutine calls [proxyStdio], [wg.Wait] and
    [shim.wait] at most once each and in this order. *)
Lemma trace_phased (w : World) : phased (f_terminal (flags w)) (trace_of w) = true.
Proof.
  unfold trace_of, final, phased.
  destruct (run_split w) as (pre & Hp & [(c & s0 & -> & E)|(s & -> & Hd & E)]).
  - cbn [snd events emit set_defers]. rewrite E, <- app_assoc, phase_run_app.
    rewrite prelude_phase by assumption. reflexivity.
  - destruct (setup_phased w s Hd) as (ev & -> & Hev).
    rewrite E, phase_run_app, prelude_phase by assumption. exact Hev.
Qed.

Lemma phase_waited_stays t l : forall q, phase_run t Waited l = Some q -> q = Waited.
Proof.
  induction l as [|e l IH]; intros q H; cbn [phase_run] in H.
  - now injection H as <-.
  - destruct e; cbn in H; try discriminate; auto.
Qed.

Lemma phase_run_wait t l : forall q q',
  phase_run t q l = Some q' -> In EvShimWait l -> q' = Waited.
Proof.
  induction l as [|e l IH]; intros q q' H Hin; [contradiction|].
  cbn [phase_run] in H. destruct (phase_step t q e) as [q1|] eqn:E1; [|discriminate].
  destruct Hin as [->|Hin]; [|eauto].
  destruct q; cbn in E1; try discriminate. injection E1 as <-.
  eapply phase_waited_stays; eauto.
Qed.

Lemma joined_to_waited t l :
  phase_run t Joined l = Some Waited -> In EvShimWait l.
Proof.
  induction l as [|e l IH]; intros H; cbn [phase_run] in H; [discriminate|].
  destruct e; cbn in H; try discriminate; try (right; now apply IH).
  now left.
Qed.

Lemma proxying_to_waited t l :
  phase_run t Proxying l = Some Waited ->
  exists pre post, l = (pre ++ EvWgWait :: post)%list
    /\ ~ In EvShimWait pre /\ In EvShimWait post.
Proof.
  induction l as [|e l IH]; intros H; cbn [phase_run] in H; [discriminate|].
  destruct e; cbn in H; try discriminate;
    try (destruct (IH H) as (pre & post & -> & Hn & Hi);
         eexists (_ :: pre), post; split; [reflexivity|]; split; [|assumption];
         intros [E|E]; [discriminate | auto]).
  exists [], l. split; [reflexivity|]. split; [intros []|]. eapply joined_to_waited; eauto.
Qed.

Lemma before_to_waited t l :
  phase_run t BeforeProxy l = Some Waited ->
  exists pre post, l = (pre ++ EvWgWait :: post)%list
    /\ In (EvProxyStdio t) pre /\ ~ In EvShimWait pre /\ In EvShimWait post.
Proof.
  induction l as [|e l IH]; intros H; cbn [phase_run] in H; [discriminate|].
  destruct e; cbn in H; try discriminate;
    try (destruct (IH H) as (pre & post & -> & Hp & Hn & Hi);
         eexists (_ :: pre), post; split; [reflexivity|];
         split; [now right|]; split; [|assumption];
         intros [E|E]; [discriminate | auto]).
  destruct (Bool.eqb t terminal) eqn:Et; [|discriminate].
  apply eqb_prop in Et. subst terminal.
  destruct (proxying_to_waited _ _ H) as (pre & post & -> & Hn & Hi).
  exists (EvProxyStdio t :: pre), post. split; [reflexivity|].
  split; [now left|]. split; [|assumption].
  intros [E|E]; [discriminate | auto].
Qed.

(** ** The join barrier *)

Lemma unfinished_copying l : unfinished (List.map Copying l) = List.length l.
Proof.
  induction l as [|k l IH]; [reflexivity|].
  unfold unfinished in *. cbn. now rewrite IH.
Qed.

Lemma length_set_nth {A} (x : A) l : forall i,
  List.length (set_nth i x l) = List.length l.
Proof.
  induction l as [|y l IH]; intros [|i]; cbn; try reflexivity. now rewrite IH.
Qed.

Lemma unfinished_copy l : forall i k k',
  nth_error l i = Some (Copying k) ->
  unfinished (set_nth i (Copying k') l) = unfinished l.
Proof.
  induction l as [|y l IH]; intros [|i] k k' H; cbn in H; try discriminate.
  - injection H as ->. reflexivity.
  - unfold unfinished in *. cbn. destruct y; cbn; rewrite (IH _ _ _ H); reflexivity.
Qed.

Lemma copying_unfinished l : forall i k,
  nth_error l i = Some (Copying k) -> unfinished l <> 0%nat.
Proof.
  induction l as [|z l IH]; intros [|i] k H; cbn in H; try discriminate.
  - injection H as ->. discriminate.
  - unfold unfinished in *. destruct z; cbn; [discriminate | eauto].
Qed.

Lemma unfinished_done l : forall i k,
  nth_error l i = Some (Copying k) ->
  unfinished (set_nth i Finished l) = Nat.pred (unfinished l).
Proof.
  induction l as [|y l IH]; intros [|i] k H; cbn in H; try discriminate.
  - injection H as ->. reflexivity.
  - pose proof (copying_unfinished _ _ _ H) as Hne.
    unfold unfinished in *. cbn. destruct y; cbn; rewrite (IH _ _ H); [lia | reflexivity].
Qed.

Lemma unfinished_zero l : unfinished l = 0%nat -> all_finished l.
Proof.
  unfold all_finished. induction l as [|y l IH]; intros H; [constructor|].
  unfold unfinished in *. destruct y; cbn in H; [discriminate|].
  constructor; [reflexivity | auto].
Qed.

Section Join.

Variable w : World.

Lemma join_inv_conf0 : join_inv w (conf0 w).
Proof.
  unfold join_inv, conf0; cbn. repeat split.
  exists BeforeProxy. split; reflexivity.
Qed.

(** The calls of [main] are taken in an order that [phase_run] accepts. *)
Lemma next_call_phased done q e rest :
  (done ++ e :: rest)%list = trace_of w ->
  phase_run (f_terminal (flags w)) BeforeProxy done = Some q ->
  exists q', phase_step (f_terminal (flags w)) q e = Some q'
    /\ phase_run (f_terminal (flags w)) BeforeProxy (done ++ [e]) = Some q'
    /\ ((done ++ [e]) ++ rest)%list = trace_of w.
Proof.
  intros HT Hq.
  pose proof (trace_phased w) as Hp. unfold phased in Hp.
  rewrite <- HT, phase_run_app, Hq in Hp. cbn [phase_run] in Hp.
  destruct (phase_step (f_terminal (flags w)) q e) as [q'|] eqn:Eq; [|discriminate].
  exists q'. split; [reflexivity|]. split.
  - rewrite phase_run_app, Hq. cbn. now rewrite Eq.
  - now rewrite <- app_assoc.
Qed.

Lemma join_inv_main c c' : join_inv w c -> step w Main c = Some c' -> join_inv w c'.
Proof.
  intros (HT & Hwg & q & Hq & Hts) Hs. cbn [step] in Hs.
  destruct (c_todo c) as [|e rest] eqn:Etodo; [discriminate|].
  destruct (next_call_phased _ q e rest HT Hq) as (q' & Hq' & Hrun & Hsplit).
  destruct e; cbn in Hs;
    try (injection Hs as <-; cbn [spawned] in *;
         unfold join_inv; cbn [c_done c_todo c_wg c_tasks];
         rewrite ?app_nil_r, ?Nat.add_0_r;
         split; [assumption|]; split; [assumption|];
         exists q'; split; [assumption|];
         destruct q; cbn in Hq'; injection Hq' as <-; exact Hts).
  - (* proxyStdio: the tasks are started and counted *)
    injection Hs as <-. unfold join_inv; cbn [c_done c_todo c_wg c_tasks].
    destruct q; cbn in Hq'; try discriminate.
    destruct (Bool.eqb (f_terminal (flags w)) terminal) eqn:Et; [|discriminate].
    apply eqb_prop in Et. subst terminal. injection Hq' as <-.
    cbn in Hts. rewrite Hts in *. cbn [app].
    split; [assumption|]. split.
    { rewrite Hwg. cbn. now rewrite unfinished_copying. }
    exists Proxying. split; [assumption|]. cbn. now rewrite length_map.
  - (* wg.Wait: taken with the counter at zero *)
    destruct (Nat.eqb (c_wg c) 0) eqn:E0; [|discriminate].
    apply Nat.eqb_eq in E0. injection Hs as <-.
    unfold join_inv; cbn [c_done c_todo c_wg c_tasks].
    split; [assumption|]. split; [assumption|].
    destruct q; cbn in Hq'; try discriminate. injection Hq' as <-.
    exists Joined. split; [assumption|].
    cbn [tasks_of_phase c_tasks] in *. split; [exact Hts | now rewrite <- Hwg].
  - (* shim.wait *)
    injection Hs as <-. cbn [spawned] in *.
    unfold join_inv; cbn [c_done c_todo c_wg c_tasks].
    rewrite ?app_nil_r, ?Nat.add_0_r.
    split; [assumption|]. split; [assumption|].
    destruct q; cbn in Hq'; try discriminate. injection Hq' as <-.
    exists Waited. split; [assumption|]. exact Hts.
Qed.

Lemma join_inv_task i c c' : join_inv w c -> step w (Task i) c = Some c' -> join_inv w c'.
Proof.
  intros (HT & Hwg & q & Hq & Hts) Hs. cbn [step] in Hs.
  destruct (nth_error (c_tasks c) i) as [[[|k]|]|] eqn:En; try discriminate;
    injection Hs as <-; unfold join_inv; cbn [c_done c_todo c_wg c_tasks].
  - split; [assumption|]. split.
    { rewrite (unfinished_done _ _ _ En). now f_equal. }
    exists q. split; [assumption|].
    destruct q; cbn [tasks_of_phase c_tasks] in *.
    + rewrite Hts in En. destruct i; discriminate.
    + now rewrite length_set_nth.
    + destruct Hts as [HL HU]. rewrite length_set_nth, (unfinished_done _ _ _ En), HU.
      now split.
    + destruct Hts as [HL HU]. rewrite length_set_nth, (unfinished_done _ _ _ En), HU.
      now split.
  - split; [assumption|]. split.
    { now rewrite (unfinished_copy _ _ _ _ En). }
    exists q. split; [assumption|].
    destruct q; cbn [tasks_of_phase c_tasks] in *;
      rewrite ?length_set_nth, ?(unfinished_copy _ _ _ _ En); try assumption.
    rewrite Hts in En. destruct i; discriminate.
Qed.

Lemma join_inv_exec acts : forall c c',
  join_inv w c -> exec w acts c = Some c' -> join_inv w c'.
Proof.
  induction acts as [|a acts IH]; intros c c' Hi He; cbn in He.
  - now injection He as <-.
  - destruct (step w a c) as [c1|] eqn:Es; [|discriminate].
    eapply IH; [|exact He].
    destruct a; [eapply join_inv_main | eapply join_inv_task]; eauto.
Qed.

End Join.

(** C1.  In every interleaving of the calls of [main] with the copy tasks,
    once the remote wait ([shim.wait]) has been issued, [wg.Wait] has
    returned before it and after [proxyStdio], and every copy task that
    [proxyStdio] started has finished. *)
Theorem wait_only_after_stdio_join (w : World) (acts : list action) (c : Conf) :
  exec w acts (conf0 w) = Some c ->
  In EvShimWait (c_done c) ->
  (exists pre post, c_done c = (pre ++ EvWgWait :: post)%list
     /\ In (EvProxyStdio (f_terminal (flags w))) pre
     /\ ~ In EvShimWait pre /\ In EvShimWait post)
  /\ List.length (c_tasks c)
     = List.length (spawned w (EvProxyStdio (f_terminal (flags w))))
  /\ all_finished (c_tasks c).
Proof.
  intros He Hin.
  destruct (join_inv_exec w acts _ _ (join_inv_conf0 w) He) as (HT & Hwg & q & Hq & Hts).
  assert (q = Waited) by (eapply phase_run_wait; eauto). subst q.
  cbn [tasks_of_phase] in Hts. destruct Hts as [HL HU].
  split; [now apply before_to_waited|].
  split; [exact HL | now apply unfinished_zero].
Qed.

Lemma wait_only_after_stdio_join_witness :
  exists c,
    exec (w_session true true (Returns (Ok 17))) sample_schedule
         (conf0 (w_session true true (Returns (Ok 17)))) = Some c
    /\ In EvShimWait (c_done c)
    /\ List.length (c_tasks c) = 3%nat
    /\ all_finished (c_tasks c).
Proof.
  eexists. split; [vm_compute; reflexivity|].
  split; [vm_compute; tauto|].
  refine (let H := wait_only_after_stdio_join
                     (w_session true true (Returns (Ok 17))) sample_schedule _ _ _ in
          conj (proj1 (proj2 H)) (proj2 (proj2 H))).
  - vm_compute; reflexivity.
  - vm_compute; tauto.
Defined.

(** The barrier holds the main goroutine back: with a copy task still
    running, [wg.Wait] cannot be taken. *)
Example wait_blocked_while_copying :
  exec (w_session true true (Returns (Ok 17)))
       (List.repeat Main 13 ++ [Task 2; Task 0; Main])%list
       (conf0 (w_session true true (Returns (Ok 17)))) = None.
Proof. vm_compute. reflexivity. Qed.

(** ** The wait is reached *)

Lemma exec_app w a1 : forall a2 c,
  exec w (a1 ++ a2) c =
  match exec w a1 c with
  | Some c' => exec w a2 c'
  | None => None
  end.
Proof.
  induction a1 as [|a a1 IH]; intros a2 c; cbn [exec app]; [reflexivity|].
  destruct (step w a c); [apply IH | reflexivity].
Qed.

Lemma nth_error_set_nth {A} (x : A) l : forall i y,
  nth_error l i = Some y -> nth_error (set_nth i x l) i = Some x.
Proof.
  induction l as [|z l IH]; intros [|i] y H; cbn in *; try discriminate; eauto.
Qed.

Lemma set_nth_twice {A} (x y : A) l : forall i,
  set_nth i x (set_nth i y l) = set_nth i x l.
Proof.
  induction l as [|z l IH]; intros [|i]; cbn; try reflexivity. now rewrite IH.
Qed.

(** A copy task runs to its end: its chunks, then end-of-stream. *)
Lemma task_finishes w i : forall k c,
  nth_error (c_tasks c) i = Some (Copying k) ->
  exec w (List.repeat (Task i) (S k)) c
  = Some {| c_done := c_done c; c_todo := c_todo c;
            c_wg := Nat.pred (c_wg c);
            c_tasks := set_nth i Finished (c_tasks c) |}.
Proof.
  induction k as [|k IH]; intros c H.
  - cbn. now rewrite H.
  - change (List.repeat (Task i) (S (S k)))
      with (Task i :: List.repeat (Task i) (S k)).
    cbn [exec step]. rewrite H.
    rewrite IH; cbn [c_done c_todo c_wg c_tasks].
    + now rewrite set_nth_twice.
    + eapply nth_error_set_nth; eauto.
Qed.

Lemma unfinished_task l :
  unfinished l <> 0%nat -> exists i k, nth_error l i = Some (Copying k).
Proof.
  induction l as [|y l IH]; intros H; [now contradiction H|].
  destruct y as [k|].
  - exists 0%nat, k. reflexivity.
  - destruct (IH H) as (i & k & Hi). exists (S i), k. exact Hi.
Qed.

(** All copy tasks run to their end, whatever the main goroutine waits
    for: the counter of the WaitGroup comes down to zero. *)
Lemma tasks_drain w : forall n c,
  unfinished (c_tasks c) = n ->
  c_wg c = unfinished (c_tasks c) ->
  exists acts c',
    exec w acts c = Some c'
    /\ c_done c' = c_done c /\ c_todo c' = c_todo c /\ c_wg c' = 0%nat.
Proof.
  induction n as [|n IH]; intros c Hn Hwg.
  - exists [], c. cbn. repeat split. congruence.
  - destruct (unfinished_task (c_tasks c)) as (i & k & Hi); [lia|].
    pose proof (task_finishes w i k c Hi) as Hrun.
    match type of Hrun with _ = Some ?c1 =>
      destruct (IH c1) as (acts & c' & He & Hd & Ht & H0)
    end.
    + cbn [c_tasks]. rewrite (unfinished_done _ _ _ Hi). lia.
    + cbn [c_tasks c_wg]. rewrite (unfinished_done _ _ _ Hi). now f_equal.
    + exists (List.repeat (Task i) (S k) ++ acts)%list, c'.
      rewrite exec_app, Hrun. auto.
Qed.

(** From any configuration the run can reach, the main goroutine gets
    through the calls it has left. *)
Lemma main_completes w : forall todo c,
  join_inv w c -> c_todo c = todo ->
  exists acts c',
    exec w acts c = Some c'
    /\ c_done c' = (c_done c ++ todo)%list /\ c_todo c' = [].
Proof.
  induction todo as [|e rest IH]; intros c Hinv Htodo.
  - exists [], c. cbn. rewrite app_nil_r. auto.
  - assert (Hwg : c_wg c = unfinished (c_tasks c)) by apply Hinv.
    destruct (tasks_drain w _ c eq_refl Hwg) as (a1 & c1 & He1 & Hd1 & Ht1 & H01).
    pose proof (join_inv_exec w a1 _ _ Hinv He1) as Hinv1.
    assert (Hs : exists c2, step w Main c1 = Some c2
                  /\ c_done c2 = (c_done c1 ++ [e])%list /\ c_todo c2 = rest).
    { cbn [step]. rewrite Ht1, Htodo.
      destruct e; try (eexists; split; [reflexivity|]; split; reflexivity).
      rewrite H01. cbn. eexists; split; [reflexivity|]; split; reflexivity. }
    destruct Hs as (c2 & Hs & Hd2 & Ht2).
    pose proof (join_inv_main w _ _ Hinv1 Hs) as Hinv2.
    destruct (IH c2 Hinv2 Ht2) as (a3 & c3 & He3 & Hd3 & Ht3).
    exists (a1 ++ Main :: a3)%list, c3.
    rewrite exec_app, He1. cbn [exec]. rewrite Hs.
    split; [assumption|]. split; [|assumption].
    rewrite Hd3, Hd2, Hd1, <- app_assoc. reflexivity.
Qed.

(** Under the schedule that lets the copy tasks run to their end, every
    call of [main] is made: a run whose calls include the remote wait
    reaches it. *)
Lemma wait_reachable (w : World) :
  In EvShimWait (trace_of w) ->
  exists acts c,
    exec w acts (conf0 w) = Some c
    /\ c_done c = trace_of w /\ In EvShimWait (c_done c).
Proof.
  intros Hin.
  destruct (main_completes w (trace_of w) (conf0 w) (join_inv_conf0 w) eq_refl)
    as (acts & c & He & Hd & Ht).
  exists acts, c. cbn in Hd. rewrite Hd. auto.
Qed.

(** ** What the remote wait answers *)

Lemma setup_exit_code (w : World) (s : State) (N : Z) :
  defers s = [] ->
  shim_wait w = Returns (Ok N) ->
  exists ev, events (snd (main_rest (realMain_setup w s))) = (events s ++ ev)%list
    /\ (existsb is_wait ev = true ->
        (f_proxyExitCode (flags w) = true -> N <> 0 ->
           fst (main_rest (realMain_setup w s)) = Exited N)
        /\ (f_proxyExitCode (flags w) = false ->
           fst (main_rest (realMain_setup w s)) = Exited 0)
        /\ (N = 0 -> fst (main_rest (realMain_setup w s)) = Exited 0)).
Proof.
  intros Hd Hw. each_setup w s r.
  all: eexists; (split; [reflexivity|]); cbn; try discriminate; intros _.
  all: rewrite ?negb_true_iff, ?negb_false_iff, ?Z.eqb_eq, ?Z.eqb_neq in *.
  all: repeat split; intros; subst; try reflexivity; congruence.
Qed.

(** C2.  In a run that reaches the remote wait, when [shim.wait] returns
    the exit code [N] without error: with the proxy-exit-code flag set and
    [N] nonzero the process exits with [N]; with the flag unset it exits
    with 0 whatever [N] is; and when [N] is 0 it exits with 0 in both
    modes. *)
Theorem exit_code_policy (w : World) (N : Z) :
  In EvShimWait (trace_of w) ->
  shim_wait w = Returns (Ok N) ->
  (f_proxyExitCode (flags w) = true -> N <> 0 -> exit_status w = Exited N)
  /\ (f_proxyExitCode (flags w) = false -> exit_status w = Exited 0)
  /\ (N = 0 -> exit_status w = Exited 0).
Proof.
  intros Hin Hw. apply (In_existsb is_wait) in Hin; [|reflexivity].
  revert Hin. unfold trace_of, final, exit_status.
  destruct (run_split w) as (pre & Hp & [(c & s0 & -> & E)|(s & -> & Hd & E)]).
  - cbn [snd events emit set_defers]. rewrite E, <- app_assoc, existsb_app.
    rewrite (prelude_existsb _ pre) by (assumption || prelude_side).
    cbn. discriminate.
  - destruct (setup_exit_code w s N Hd Hw) as (ev & -> & Hev).
    rewrite E, existsb_app, (prelude_existsb _ pre) by (assumption || prelude_side).
    exact Hev.
Qed.

Lemma exit_code_policy_witness :
  exit_status (w_session false true (Returns (Ok 17))) = Exited 17
  /\ exit_status (w_session false false (Returns (Ok 17))) = Exited 0
  /\ exit_status (w_session false true (Returns (Ok 0))) = Exited 0.
Proof.
  split; [|split].
  - refine (proj1 (exit_code_policy (w_session false true (Returns (Ok 17))) 17 _ _) _ _).
    + vm_compute; tauto.
    + reflexivity.
    + reflexivity.
    + discriminate.
  - refine (proj1 (proj2 (exit_code_policy (w_session false false (Returns (Ok 17))) 17 _ _)) _).
    + vm_compute; tauto.
    + reflexivity.
    + reflexivity.
  - refine (proj2 (proj2 (exit_code_policy (w_session false true (Returns (Ok 0))) 0 _ _)) _).
    + vm_compute; tauto.
    + reflexivity.
    + reflexivity.
Defined.

Lemma setup_wait_error (w : World) (s : State) (e : error) :
  defers s = [] ->
  shim_wait w = Returns (Err e) ->
  exists ev, events (snd (main_rest (realMain_setup w s))) = (events s ++ ev)%list
    /\ (existsb is_wait ev = true ->
        fst (main_rest (realMain_setup w s)) = Exited exitFailure
        /\ count is_wait ev = 1%nat
        /\ exists fields rest,
             after is_wait ev
             = EvLog ErrorLevel fields "failed waiting for process" :: rest
             /\ In ("error", FStr e) fields).
Proof.
  intros Hd Hw. each_setup w s r.
  all: eexists; (split; [reflexivity|]); cbn; try discriminate; intros _.
  all: split; [reflexivity|]; split; [reflexivity|].
  all: eexists; eexists; split; [reflexivity|].
  all: rewrite ?in_app_iff; cbn; tauto.
Qed.

(** C6.  In a run in which [shim.wait] returns an error, the process exits
    with [exitFailure], which is not zero; the call that follows the wait
    is the error log entry that carries the error; and the wait is issued
    once only. *)
Theorem wait_error_fails (w : World) (e : error) :
  In EvShimWait (trace_of w) ->
  shim_wait w = Returns (Err e) ->
  exit_status w = Exited exitFailure
  /\ exitFailure <> 0
  /\ count is_wait (trace_of w) = 1%nat
  /\ exists fields rest,
       after is_wait (trace_of w)
       = EvLog ErrorLevel fields "failed waiting for process" :: rest
       /\ In ("error", FStr e) fields.
Proof.
  intros Hin Hw. apply (In_existsb is_wait) in Hin; [|reflexivity].
  revert Hin. unfold trace_of, final, exit_status, count.
  destruct (run_split w) as (pre & Hp & [(c & s0 & -> & E)|(s & -> & Hd & E)]).
  - cbn [snd events emit set_defers]. rewrite E, <- app_assoc, existsb_app.
    rewrite (prelude_existsb _ pre) by (assumption || prelude_side).
    cbn. discriminate.
  - destruct (setup_wait_error w s e Hd Hw) as (ev & -> & Hev).
    rewrite E, existsb_app, (prelude_existsb _ pre) by (assumption || prelude_side).
    cbn [orb]. intros Hex. destruct (Hev Hex) as (H1 & H2 & H3).
    split; [assumption|]. split; [discriminate|].
    rewrite filter_app, (prelude_filter _ pre) by (assumption || prelude_side).
    rewrite prelude_after by (assumption || prelude_side).
    split; assumption.
Qed.

Lemma wait_error_fails_witness :
  exit_status (w_session true true (Returns (Err "agent unavailable"))) = Exited 1
  /\ count is_wait (trace_of (w_session true true (Returns (Err "agent unavailable")))) = 1%nat.
Proof.
  refine (let H := wait_error_fails
                     (w_session true true (Returns (Err "agent unavailable")))
                     "agent unavailable" _ _ in
          conj (proj1 H) (proj1 (proj2 (proj2 H)))).
  - vm_compute; tauto.
  - reflexivity.
Defined.

(** ** Raw mode *)

Lemma setup_restores (w : World) (s : State) :
  defers s = [] ->
  exists ev, events (snd (main_rest (realMain_setup w s))) = (events s ++ ev)%list
    /\ List.filter is_restore ev
       = match setupTerminal w (StdinFd w) with
         | Returns (Ok t) =>
             List.map (fun _ => EvRestoreTerminal (StdinFd w) t)
                      (List.filter is_setup ev)
         | _ => []
         end
    /\ (List.length (List.filter is_setup ev) <= 1)%nat
    /\ List.filter is_restore (after is_setup ev) = List.filter is_restore ev
    /\ List.filter is_restore ev = List.map released (List.filter is_acquire ev).
Proof.
  intros Hd. each_setup w s r.
  all: eexists; (split; [reflexivity|]).
  all: cbn [List.filter List.map List.length after is_restore is_setup is_acquire
            released app].
  all: try match goal with
           | |- context [match ?x with Returns _ => _ | Panics _ => _ end] =>
               destruct x as [[?|?]|?]
           end.
  all: repeat split; try reflexivity; try lia.
Qed.

(** C5.  In every run of [main], however it ends (normal return of
    [realMain], a failure return, a panic raised by one of the calls of
    [realMain], an exit of the process), [restoreTerminal] is called
    exactly when [setupTerminal] has been called and has returned the
    saved attributes without error: once, after that call and with those
    attributes; when [setupTerminal] is not called, fails or panics,
    there is no restore.  [setupTerminal] is called at most once. *)
Theorem raw_mode_restored_once (w : World) :
  List.filter is_restore (trace_of w)
  = match setupTerminal w (StdinFd w) with
    | Returns (Ok t) =>
        List.map (fun _ => EvRestoreTerminal (StdinFd w) t)
                 (List.filter is_setup (trace_of w))
    | _ => []
    end
  /\ count is_restore (trace_of w)
     = match setupTerminal w (StdinFd w) with
       | Returns (Ok _) => count is_setup (trace_of w)
       | _ => 0%nat
       end
  /\ (count is_setup (trace_of w) <= 1)%nat
  /\ count is_restore (after is_setup (trace_of w)) = count is_restore (trace_of w)
  /\ count is_restore (trace_of w) = count is_acquire (trace_of w).
Proof.
  assert (H : List.filter is_restore (trace_of w)
              = match setupTerminal w (StdinFd w) with
                | Returns (Ok t) =>
                    List.map (fun _ => EvRestoreTerminal (StdinFd w) t)
                             (List.filter is_setup (trace_of w))
                | _ => []
                end
              /\ (count is_setup (trace_of w) <= 1)%nat
              /\ List.filter is_restore (after is_setup (trace_of w))
                 = List.filter is_restore (trace_of w)
              /\ List.filter is_restore (trace_of w)
                 = List.map released (List.filter is_acquire (trace_of w))).
  { unfold trace_of, final, count.
    destruct (run_split w) as (pre & Hp & [(c & s0 & -> & E)|(s & -> & Hd & E)]).
    - cbn [snd events emit set_defers]. rewrite E, <- app_assoc.
      rewrite prelude_after by (assumption || prelude_side).
      rewrite !filter_app.
      rewrite !(prelude_filter _ pre) by (assumption || prelude_side).
      cbn. destruct (setupTerminal w (StdinFd w)) as [[?|?]|?]; auto.
    - destruct (setup_restores w s Hd) as (ev & -> & Hev & Hle & Haf & Hmk).
      rewrite E, prelude_after by (assumption || prelude_side).
      rewrite !filter_app.
      rewrite !(prelude_filter _ pre) by (assumption || prelude_side).
      cbn [app]. auto. }
  destruct H as (H1 & H2 & H3 & H4).
  split; [exact H1|]. split.
  { unfold count. rewrite H1.
    destruct (setupTerminal w (StdinFd w)) as [[?|?]|?];
      [apply length_map | reflexivity | reflexivity]. }
  split; [exact H2|]. split.
  { unfold count. now rewrite H3. }
  unfold count. rewrite H4. apply length_map.
Qed.

Lemma raw_mode_restored_once_witness :
  List.filter is_restore (trace_of (w_session true true (Returns (Ok 17))))
  = [EvRestoreTerminal 0 (Termios 7)]
  /\ List.filter is_restore (trace_of (w_session true true (Panics "boom")))
     = [EvRestoreTerminal 0 (Termios 7)]
  /\ List.filter is_restore (trace_of w_notty) = []
  /\ count is_setup (trace_of w_notty) = 1%nat.
Proof.
  split; [|split; [|split]].
  - rewrite (proj1 (raw_mode_restored_once (w_session true true (Returns (Ok 17))))).
    vm_compute. reflexivity.
  - rewrite (proj1 (raw_mode_restored_once (w_session true true (Panics "boom")))).
    vm_compute. reflexivity.
  - rewrite (proj1 (raw_mode_restored_once w_notty)).
    vm_compute. reflexivity.
  - vm_compute. reflexivity.
Defined.

(** Raw mode acquired, then a normal return and a failure return. *)
Example restore_on_return :
  count is_acquire (trace_of (w_session true true (Returns (Ok 17)))) = 1%nat
  /\ count is_restore (trace_of (w_session true true (Returns (Ok 17)))) = 1%nat
  /\ count is_acquire (trace_of (w_session true true (Returns (Err "agent unavailable")))) = 1%nat
  /\ count is_restore (trace_of (w_session true true (Returns (Err "agent unavailable")))) = 1%nat.
Proof. vm_compute. repeat split. Qed.

(** Raw mode acquired, then a panic in [shim.wait]: the deferred restore
    runs before the recovery hook of [main]. *)
Example restore_on_panic :
  after is_wait (trace_of (w_session true true (Panics "boom")))
  = [EvPanic "boom"; EvSignalStop; EvRestoreTerminal 0 (Termios 7);
     EvSpanFinish "realMain"; EvHandlePanic "boom"].
Proof. vm_compute. reflexivity. Qed.

(** ** main after realMain *)

Lemma run_after_realMain (w : World) :
  match run_realMain w with
  | (Normal c, s) =>
      exit_status w = Exited c
      /\ trace_of w = (events s ++ [EvStopTracing; EvExit c])%list
  | (Panicking v, s) =>
      exit_status w = Panicking v
      /\ trace_of w = (events s ++ [EvHandlePanic v])%list
  | (Exited c, s) =>
      exit_status w = Exited c /\ trace_of w = events s
  end.
Proof.
  unfold trace_of, final, exit_status. rewrite run_unfold, run_realMain_unfold.
  destruct (realMain_body w (init_state w)) as [[c|v|c] s]; cbn;
    rewrite <- ?app_assoc; split; reflexivity.
Qed.

Lemma setup_no_stopTracing (w : World) (s : State) :
  defers s = [] ->
  exists ev, events (snd (leave_frame [] (realMain_setup w s))) = (events s ++ ev)%list
    /\ List.filter is_stopTracing ev = [].
Proof.
  intros Hd. each_setup_of (leave_frame [] (realMain_setup w s)) w s r.
  all: eexists; (split; [first [reflexivity | symmetry; apply app_nil_r]|]); reflexivity.
Qed.

Lemma realMain_no_stopTracing (w : World) :
  List.filter is_stopTracing (events (snd (run_realMain w))) = [].
Proof.
  rewrite run_realMain_unfold.
  destruct (realMain_prelude w) as [(c & s & E & Hd & Hp)|(s & E & Hd & Hp)]; rewrite E.
  - cbn. rewrite Hd. cbn. apply prelude_filter; [prelude_side | assumption].
  - destruct (setup_no_stopTracing w s Hd) as (ev & -> & Hev).
    rewrite filter_app, Hev, app_nil_r. apply prelude_filter; [prelude_side | assumption].
Qed.

(** C7, as amended.  In every run of [main] in which [realMain] returns an
    exit code, [stopTracing] is called exactly once, after [realMain] has
    returned and immediately before [os.Exit] with that code. *)
Theorem tracer_stopped_after_realMain (w : World) (code : Z) :
  fst (run_realMain w) = Normal code ->
  exit_status w = Exited code
  /\ trace_of w = (events (snd (run_realMain w)) ++ [EvStopTracing; EvExit code])%list
  /\ count is_stopTracing (trace_of w) = 1%nat.
Proof.
  intros H. pose proof (run_after_realMain w) as Hm.
  pose proof (realMain_no_stopTracing w) as Hn.
  destruct (run_realMain w) as [[c|v|c] s]; cbn in H; try discriminate.
  injection H as ->. destruct Hm as [H1 H2]. cbn [snd] in *.
  repeat split; try assumption.
  unfold count. rewrite H2, filter_app, Hn. reflexivity.
Qed.

Lemma tracer_stopped_after_realMain_witness :
  exit_status (w_session true true (Returns (Ok 17))) = Exited 17
  /\ count is_stopTracing (trace_of (w_session true true (Returns (Ok 17)))) = 1%nat.
Proof.
  refine (let H := tracer_stopped_after_realMain
                     (w_session true true (Returns (Ok 17))) 17 _ in
          conj (proj1 H) (proj2 (proj2 H))).
  vm_compute; reflexivity.
Defined.

(** C7, as stated, fails: when the tracer cannot be set up, the fatal log
    entry ends the process inside [realMain] and [stopTracing] is never
    called. *)
Lemma tracer_not_stopped_on_fatal :
  createTracer w_tracer_fails shimName = Returns (Err "no tracer")
  /\ exit_status w_tracer_fails = Exited 1
  /\ count is_stopTracing (trace_of w_tracer_fails) = 0%nat
  /\ count is_stopTracing (trace_of w_tracer_fails) <> 1%nat.
Proof. vm_compute. repeat split; discriminate. Qed.

(** ** The terminal *)

Lemma setup_terminal_error (w : World) (s : State) (e : error) :
  defers s = [] ->
  setupTerminal w (StdinFd w) = Returns (Err e) ->
  exists ev, events (snd (main_rest (realMain_setup w s))) = (events s ++ ev)%list
    /\ (existsb is_setup ev = true ->
        fst (main_rest (realMain_setup w s)) = Exited exitFailure
        /\ exists fields,
            ev = [EvCreateTracer shimName;
                  EvStartSpan "realMain";
                  EvNewShim (f_agent (flags w)) (f_container (flags w)) (f_execID (flags w));
                  EvSetupTerminal (StdinFd w);
                  EvLog ErrorLevel fields "failed to set raw terminal";
                  EvSpanFinish "realMain";
                  EvStopTracing;
                  EvExit exitFailure]
            /\ In ("error", FStr e) fields).
Proof.
  intros Hd Hw. each_setup w s r.
  all: eexists; (split; [reflexivity|]); cbn; try discriminate; intros _.
  all: split; [reflexivity|]; eexists; split; [reflexivity|].
  all: rewrite ?in_app_iff; cbn; tauto.
Qed.

(** C3, as amended.  In a run that attempts raw mode and in which
    [setupTerminal] fails, the process exits with [exitFailure] after the
    error log entry; the connection to the agent ([newShim]) has been made
    before the attempt; no signal forwarding, stdio proxying or remote
    wait follows, and there is nothing to restore. *)
Theorem terminal_failure_after_connect (w : World) (e : error) :
  In (EvSetupTerminal (StdinFd w)) (trace_of w) ->
  setupTerminal w (StdinFd w) = Returns (Err e) ->
  exit_status w = Exited exitFailure
  /\ exitFailure <> 0
  /\ count is_session (trace_of w) = 0%nat
  /\ count is_restore (trace_of w) = 0%nat
  /\ exists pre fields,
       forallb is_prelude pre = true
       /\ In ("error", FStr e) fields
       /\ trace_of w
          = (pre ++ [EvCreateTracer shimName;
                     EvStartSpan "realMain";
                     EvNewShim (f_agent (flags w)) (f_container (flags w)) (f_execID (flags w));
                     EvSetupTerminal (StdinFd w);
                     EvLog ErrorLevel fields "failed to set raw terminal";
                     EvSpanFinish "realMain";
                     EvStopTracing;
                     EvExit exitFailure])%list.
Proof.
  intros Hin Hw. apply (In_existsb is_setup) in Hin; [|reflexivity].
  revert Hin. unfold trace_of, final, exit_status, count.
  destruct (run_split w) as (pre & Hp & [(c & s0 & -> & E)|(s & -> & Hd & E)]).
  - cbn [snd events emit set_defers]. rewrite E, <- app_assoc, existsb_app.
    rewrite (prelude_existsb _ pre) by (assumption || prelude_side).
    cbn. discriminate.
  - destruct (setup_terminal_error w s e Hd Hw) as (ev & -> & Hev).
    rewrite E, existsb_app, (prelude_existsb _ pre) by (assumption || prelude_side).
    cbn [orb]. intros Hex. destruct (Hev Hex) as (H1 & fields & -> & Hf).
    split; [assumption|]. split; [discriminate|].
    rewrite !filter_app, !(prelude_filter _ pre) by (assumption || prelude_side).
    split; [reflexivity|]. split; [reflexivity|].
    exists pre, fields. auto.
Qed.

Lemma terminal_failure_after_connect_witness :
  exit_status w_notty = Exited 1
  /\ count is_session (trace_of w_notty) = 0%nat.
Proof.
  refine (let H := terminal_failure_after_connect w_notty
                     "inappropriate ioctl for device" _ _ in
          conj (proj1 H) (proj1 (proj2 (proj2 H)))).
  - vm_compute; tauto.
  - reflexivity.
Defined.

(** C3, as stated, fails: with [-terminal] and a standard input that is no
    terminal, the connection to the agent is made before raw mode is
    attempted. *)
Lemma connects_before_raw_mode :
  f_terminal (flags w_notty) = true
  /\ setupTerminal w_notty (StdinFd w_notty) = Returns (Err "inappropriate ioctl for device")
  /\ exists pre post,
       trace_of w_notty = (pre ++ EvSetupTerminal 0 :: post)%list
       /\ In (EvNewShim "sock://A" "c1" "e1") pre
       /\ count is_connect pre <> 0%nat.
Proof.
  split; [reflexivity|]. split; [reflexivity|].
  exists (List.firstn 7 (trace_of w_notty)), (List.skipn 8 (trace_of w_notty)).
  vm_compute. split; [reflexivity|]. split; [tauto | discriminate].
Qed.

(** ** Package variables after the prelude *)

Lemma setup_keeps (w : World) (s : State) :
  defers s = [] ->
  exists ev, events (snd (main_rest (realMain_setup w s))) = (events s ++ ev)%list
    /\ debug (snd (main_rest (realMain_setup w s))) = debug s
    /\ crashOnError (snd (main_rest (realMain_setup w s))) = crashOnError s
    /\ gomaxprocs (snd (main_rest (realMain_setup w s))) = gomaxprocs s.
Proof.
  intros Hd. each_setup w s r.
  all: eexists; (split; [reflexivity|]); repeat split.
Qed.

(** C8.  [setThreads] is the first thing every run does; when GOMAXPROCS
    is not set in the environment and the host has more than [maxThreads]
    = 6 CPUs, it sets GOMAXPROCS to 6, and the setting is still 6 when the
    run ends. *)
Theorem threads_capped (w : World) :
  Getenv w "GOMAXPROCS" = EmptyString ->
  NumCPU w > maxThreads ->
  maxThreads = 6
  /\ setThreads w (init_state w)
     = (Normal tt, set_gomaxprocs maxThreads (emit (EvGOMAXPROCS maxThreads) (init_state w)))
  /\ gomaxprocs (final w) = maxThreads
  /\ exists rest, trace_of w = EvGOMAXPROCS maxThreads :: rest.
Proof.
  intros Henv Hcpu.
  apply String.eqb_eq in Henv. apply Z.gt_lt, Z.gtb_lt in Hcpu.
  split; [reflexivity|]. split.
  { unfold setThreads, runtime_GOMAXPROCS. rewrite Henv, Hcpu. reflexivity. }
  unfold trace_of, final. rewrite run_unfold. unfold maxThreads in *.
  each_prelude w r; finish_prelude setup_keeps; (split; [reflexivity | eexists; reflexivity]).
Qed.

Lemma threads_capped_witness :
  gomaxprocs (final (w_session false true (Returns (Ok 0)))) = 6
  /\ NumCPU (w_session false true (Returns (Ok 0))) = 64.
Proof.
  refine (conj (proj1 (proj2 (proj2 (threads_capped
                  (w_session false true (Returns (Ok 0))) _ _))))
               eq_refl).
  - reflexivity.
  - reflexivity.
Defined.

(** On a host with few CPUs, or with GOMAXPROCS set, [setThreads] leaves
    the setting of the runtime alone. *)
Lemma setThreads_leaves (w : World) (s : State) :
  Getenv w "GOMAXPROCS" <> EmptyString \/ NumCPU w <= maxThreads ->
  setThreads w s = (Normal tt, s).
Proof.
  intros H. unfold setThreads.
  destruct (String.eqb_spec (Getenv w "GOMAXPROCS") EmptyString) as [E|E].
  - destruct H as [H|H]; [contradiction|].
    destruct (Z.gtb_spec (NumCPU w) maxThreads); [lia | reflexivity].
  - reflexivity.
Qed.

(** C10, as amended.  In every run without the version flag: when the log
    level is "debug" the debug mode is on whatever the debug flag says,
    and whenever the debug mode is on so is [crashOnError]. *)
Theorem debug_implies_crashOnError (w : World) :
  f_version (flags w) = false ->
  (f_log (flags w) = "debug" -> debug (final w) = true)
  /\ (debug (final w) = true -> crashOnError (final w) = true).
Proof.
  intros Hv. unfold final. rewrite run_unfold.
  each_prelude w r; finish_prelude setup_keeps.
  all: split; intros; subst; try reflexivity; try assumption;
    rewrite ?String.eqb_refl in *; discriminate.
Qed.

Lemma debug_implies_crashOnError_witness :
  f_debug (flags w_log_debug) = false
  /\ debug (final w_log_debug) = true
  /\ crashOnError (final w_log_debug) = true.
Proof.
  refine (let H := debug_implies_crashOnError w_log_debug _ in
          conj eq_refl (conj (proj1 H eq_refl) (proj2 H (proj1 H eq_refl)))).
  reflexivity.
Defined.

(** C10, as stated, fails: with the version flag the run ends before the
    log level and the debug flag are looked at. *)
Lemma version_skips_debug_mode :
  (f_log (flags w_version_log_debug) = "debug"
   /\ debug (final w_version_log_debug) = false)
  /\ (debug (final w_version_debug) = true
      /\ crashOnError (final w_version_debug) = false).
Proof. vm_compute. repeat split. Qed.

(** ** Runs that end in the prelude *)

(** C4, as amended.  In every run without the version flag in which the
    agent address, the container ID or the exec ID is empty, the process
    exits with [exitFailure], which is not zero, after [setThreads] and
    one error log entry: no connection to the agent is attempted. *)
Theorem empty_config_fails (w : World) :
  f_version (flags w) = false ->
  f_agent (flags w) = EmptyString
  \/ f_container (flags w) = EmptyString
  \/ f_execID (flags w) = EmptyString ->
  exit_status w = Exited exitFailure
  /\ exitFailure <> 0
  /\ trace_of w
     = (events (snd (setThreads w (init_state w)))
        ++ [EvLog ErrorLevel
              [("agentAddr", FStr (f_agent (flags w)));
               ("container", FStr (f_container (flags w)));
               ("exec-id", FStr (f_execID (flags w)))]
              "container ID, exec ID and agent socket endpoint must be set";
            EvStopTracing;
            EvExit exitFailure])%list
  /\ count is_connect (trace_of w) = 0%nat.
Proof.
  intros Hv He.
  assert (Hb : String.eqb (f_agent (flags w)) EmptyString
               || String.eqb (f_container (flags w)) EmptyString
               || String.eqb (f_execID (flags w)) EmptyString = true).
  { destruct He as [-> | [-> | ->]]; cbn; rewrite ?orb_true_r; reflexivity. }
  clear He. unfold trace_of, final, exit_status. rewrite run_unfold.
  unfold setThreads, runtime_GOMAXPROCS, maxThreads.
  each_prelude w r; finish_prelude setup_keeps.
  all: repeat split; try reflexivity; discriminate.
Qed.

Lemma empty_config_fails_witness :
  exit_status w_noconfig = Exited 1
  /\ count is_connect (trace_of w_noconfig) = 0%nat.
Proof.
  refine (let H := empty_config_fails w_noconfig _ _ in
          conj (proj1 H) (proj2 (proj2 (proj2 H)))).
  - reflexivity.
  - left. reflexivity.
Defined.

(** C4, as stated, fails: with the version flag and no agent address the
    process exits with 0. *)
Lemma empty_config_with_version_exits_zero :
  f_agent (flags w_version_noconfig) = EmptyString
  /\ exit_status w_version_noconfig = Exited 0
  /\ ~ (exists c, exit_status w_version_noconfig = Exited c /\ c <> 0).
Proof.
  split; [reflexivity|]. split; [reflexivity|].
  intros (c & H & Hc). vm_compute in H. injection H as <-. contradiction.
Qed.

(** With every flag at its default the emptiness check ends the run. *)
Example default_flags_fail : exit_status w_default = Exited exitFailure.
Proof. reflexivity. Qed.

(** C9.  In every run with the version flag, [realMain] returns
    [exitSuccess] = 0 after [setThreads] and the one line that prints the
    name and the version: whatever the other arguments are, no error is
    logged, the logger and the tracer are not set up and no connection to
    the agent is attempted. *)
Theorem version_only (w : World) :
  f_version (flags w) = true ->
  fst (run_realMain w) = Normal exitSuccess
  /\ exitSuccess = 0
  /\ events (snd (run_realMain w))
     = (events (snd (setThreads w (init_state w)))
        ++ [EvPrintf (shimName ++ " version " ++ version w ++ nl)])%list
  /\ shimLog (snd (run_realMain w)) = None
  /\ exit_status w = Exited 0.
Proof.
  intros Hv. unfold exit_status. rewrite run_unfold, run_realMain_unfold.
  unfold setThreads, runtime_GOMAXPROCS, maxThreads.
  each_prelude w r; finish_prelude setup_keeps.
  all: repeat split.
Qed.

Lemma version_only_witness :
  events (snd (run_realMain w_version_noconfig))
  = [EvGOMAXPROCS 6; EvPrintf ("kata-shim version unknown" ++ nl)]
  /\ exit_status w_version_noconfig = Exited 0.
Proof.
  refine (let H := version_only w_version_noconfig _ in
          conj (proj1 (proj2 (proj2 H))) (proj2 (proj2 (proj2 (proj2 H))))).
  reflexivity.
Defined.

(** ** The scenarios of the specification *)

Example remote_exit_17 :
  exit_status (w_session false true (Returns (Ok 17))) = Exited 17.
Proof. reflexivity. Qed.

Example remote_exit_17_not_proxied :
  exit_status (w_session false false (Returns (Ok 17))) = Exited 0.
Proof. reflexivity. Qed.

Example remote_exit_0 :
  exit_status (w_session false true (Returns (Ok 0))) = Exited 0.
Proof. reflexivity. Qed.

(** ** The prelude, case by case *)

Lemma prelude_cases (w : World) :
  (f_version (flags w) = true
   /\ exists s, realMain_body w (init_state w) = (Normal exitSuccess, s)
        /\ defers s = []
        /\ forallb is_prelude (events s) = true
        /\ events s
           = (threads_calls w
              ++ [EvPrintf (shimName ++ " version " ++ version w ++ nl)])%list)
  \/ (f_version (flags w) = false /\ empty_config w = true
      /\ exists s, realMain_body w (init_state w) = (Normal exitFailure, s)
           /\ defers s = []
        /\ forallb is_prelude (events s) = true
           /\ events s
              = (threads_calls w
                 ++ [EvLog ErrorLevel
                       [("agentAddr", FStr (f_agent (flags w)));
                        ("container", FStr (f_container (flags w)));
                        ("exec-id", FStr (f_execID (flags w)))]
                       "container ID, exec ID and agent socket endpoint must be set"])%list)
  \/ (f_version (flags w) = false /\ empty_config w = false
      /\ exists e s, ParseLevel w (f_log (flags w)) = Err e
           /\ realMain_body w (init_state w) = (Normal exitFailure, s)
           /\ defers s = []
        /\ forallb is_prelude (events s) = true
           /\ shimLog s = Some (shim_fields w)
           /\ events s
              = (threads_calls w
                 ++ [EvLog ErrorLevel
                       (shim_fields w
                        ++ [("error", FStr e); ("loglevel", FStr (f_log (flags w)))])
                       "invalid log level"])%list)
  \/ (f_version (flags w) = false /\ empty_config w = false
      /\ exists l s, ParseLevel w (f_log (flags w)) = Ok l
           /\ realMain_body w (init_state w) = realMain_setup w s
           /\ defers s = []
        /\ forallb is_prelude (events s) = true
           /\ shimLog s = Some (shim_fields w)
           /\ events s
              = (threads_calls w
                 ++ EvSetLevel l :: hook_calls w
                 ++ [EvLog InfoLevel (shim_fields w ++ announce_fields w) "announce"])%list).
Proof.
  unfold threads_calls, hook_calls, empty_config, announce_fields, effective_debug,
    shim_fields, setThreads, runtime_GOMAXPROCS, maxThreads.
  each_prelude w r.
  all: cbn -[String.eqb Z.gtb Z.eqb String.append realMain_setup].
  all: first
    [ left; split; [reflexivity|]; eexists; repeat split; reflexivity
    | right; left; split; [reflexivity|]; split; [assumption || reflexivity|];
      eexists; repeat split; reflexivity
    | right; right; left; split; [reflexivity|]; split; [assumption || reflexivity|];
      do 2 eexists; repeat split; reflexivity
    | right; right; right; split; [reflexivity|]; split; [assumption || reflexivity|];
      do 2 eexists; repeat split; reflexivity ].
Qed.

(** The same for a whole run: the three ways to end in the prelude, or
    the set-up and the session from the state the prelude leaves. *)
Lemma run_cases (w : World) :
  (f_version (flags w) = true
   /\ exit_status w = Exited exitSuccess
   /\ trace_of w
      = (threads_calls w
         ++ [EvPrintf (shimName ++ " version " ++ version w ++ nl);
             EvStopTracing; EvExit exitSuccess])%list)
  \/ (f_version (flags w) = false /\ empty_config w = true
      /\ exit_status w = Exited exitFailure
      /\ trace_of w
         = (threads_calls w
            ++ [EvLog ErrorLevel
                  [("agentAddr", FStr (f_agent (flags w)));
                   ("container", FStr (f_container (flags w)));
                   ("exec-id", FStr (f_execID (flags w)))]
                  "container ID, exec ID and agent socket endpoint must be set";
                EvStopTracing; EvExit exitFailure])%list)
  \/ (f_version (flags w) = false /\ empty_config w = false
      /\ exists e, ParseLevel w (f_log (flags w)) = Err e
           /\ exit_status w = Exited exitFailure
           /\ shimLog (final w) = Some (shim_fields w)
           /\ trace_of w
              = (threads_calls w
                 ++ [EvLog ErrorLevel
                       (shim_fields w
                        ++ [("error", FStr e); ("loglevel", FStr (f_log (flags w)))])
                       "invalid log level";
                     EvStopTracing; EvExit exitFailure])%list)
  \/ (f_version (flags w) = false /\ empty_config w = false
      /\ exists l s, ParseLevel w (f_log (flags w)) = Ok l
           /\ run w = main_rest (realMain_setup w s)
           /\ defers s = []
           /\ forallb is_prelude (events s) = true
           /\ shimLog s = Some (shim_fields w)
           /\ events s
              = (threads_calls w
                 ++ EvSetLevel l :: hook_calls w
                 ++ [EvLog InfoLevel (shim_fields w ++ announce_fields w) "announce"])%list).
Proof.
  unfold exit_status, trace_of, final. rewrite run_unfold.
  destruct (prelude_cases w)
    as [(Hv & s & E & Hd & Hp & Hev)
       |[(Hv & Hc & s & E & Hd & Hp & Hev)
        |[(Hv & Hc & e & s & Hl & E & Hd & Hp & HL & Hev)
         |(Hv & Hc & l & s & Hl & E & Hd & Hp & HL & Hev)]]]; rewrite E.
  - left. rewrite main_rest_normal by assumption.
    cbn [fst snd events emit set_defers]. rewrite Hev, <- !app_assoc. auto.
  - right; left. rewrite main_rest_normal by assumption.
    cbn [fst snd events emit set_defers]. rewrite Hev, <- !app_assoc. auto.
  - right; right; left. rewrite main_rest_normal by assumption.
    cbn [fst snd events emit set_defers shimLog]. rewrite Hev, <- !app_assoc.
    repeat split; try assumption. exists e. auto.
  - right; right; right. repeat split; try assumption. exists l, s. auto 10.
Qed.

(** A run that ends in the prelude makes no call but the prelude's, then
    stops the tracer and exits. *)
Lemma run_early_or_setup (w : World) :
  (exists pre c, forallb is_prelude pre = true
     /\ (c = exitSuccess \/ c = exitFailure)
     /\ (c = exitSuccess -> f_version (flags w) = true)
     /\ exit_status w = Exited c
     /\ trace_of w = (pre ++ [EvStopTracing; EvExit c])%list)
  \/ (f_version (flags w) = false /\ empty_config w = false
      /\ exists l s, ParseLevel w (f_log (flags w)) = Ok l
           /\ run w = main_rest (realMain_setup w s)
           /\ defers s = []
           /\ forallb is_prelude (events s) = true
           /\ shimLog s = Some (shim_fields w)).
Proof.
  unfold exit_status, trace_of, final. rewrite run_unfold.
  destruct (prelude_cases w)
    as [(Hv & s & E & Hd & Hp & Hev)
       |[(Hv & Hc & s & E & Hd & Hp & Hev)
        |[(Hv & Hc & e & s & Hl & E & Hd & Hp & HL & Hev)
         |(Hv & Hc & l & s & Hl & E & Hd & Hp & HL & Hev)]]]; rewrite E.
  - left. exists (events s), exitSuccess. rewrite main_rest_normal by assumption.
    cbn [fst snd events emit set_defers]. rewrite <- !app_assoc. auto 10.
  - left. exists (events s), exitFailure. rewrite main_rest_normal by assumption.
    cbn [fst snd events emit set_defers]. rewrite <- !app_assoc.
    repeat split; auto. discriminate.
  - left. exists (events s), exitFailure. rewrite main_rest_normal by assumption.
    cbn [fst snd events emit set_defers]. rewrite <- !app_assoc.
    repeat split; auto. discriminate.
  - right. repeat split; try assumption. exists l, s. auto 10.
Qed.

(** ** Exit codes *)

Lemma setup_exit_codes (w : World) (s : State) :
  defers s = [] ->
  exists ev, events (snd (main_rest (realMain_setup w s))) = (events s ++ ev)%list
    /\ (forall c, fst (main_rest (realMain_setup w s)) = Exited c ->
          c = exitFailure
          \/ (existsb is_wait ev = true
              /\ exists N, shim_wait w = Returns (Ok N)
                   /\ ((c = N /\ N <> 0 /\ f_proxyExitCode (flags w) = true)
                       \/ (c = exitSuccess
                           /\ (N = 0 \/ f_proxyExitCode (flags w) = false))))).
Proof.
  intros Hd. each_setup w s r.
  all: eexists; (split; [reflexivity|]); cbn; intros c Hc;
    try discriminate; injection Hc as <-.
  all: rewrite ?negb_true_iff, ?negb_false_iff, ?Z.eqb_eq, ?Z.eqb_neq in *.
  all: first [ left; reflexivity
             | right; split; [reflexivity|]; eexists; split; [reflexivity|]; auto 6 ].
Qed.

Lemma wait_in l : existsb is_wait l = true -> In EvShimWait l.
Proof.
  intros H. apply existsb_exists in H as (x & Hin & Hx).
  destruct x; try discriminate. exact Hin.
Qed.

(** On a command line that [flag.Parse] has accepted, when [main.go]
    ends the process with the code 0, the version flag is set or the
    remote wait has returned without error, with the code 0 or with the
    proxying off: no failure that [realMain] sees ends in its exit 0. *)
Theorem exit_zero_means_success (w : World) :
  exit_status w = Exited 0 ->
  f_version (flags w) = true
  \/ (In EvShimWait (trace_of w)
      /\ exists N, shim_wait w = Returns (Ok N)
           /\ (N = 0 \/ f_proxyExitCode (flags w) = false)).
Proof.
  intros H.
  destruct (run_early_or_setup w)
    as [(pre & c0 & Hp & Hc & Hv & Hx & Ht)|(Hv & Hc & l & s & Hl & Hr & Hd & Hp & HL)].
  - rewrite Hx in H. injection H as ->. left. now apply Hv.
  - right. unfold exit_status, trace_of, final in *. rewrite Hr in *.
    destruct (setup_exit_codes w s Hd) as (ev & -> & Hev).
    destruct (Hev 0 H) as [E|(Hw & N & HN & [(<- & Hn & _)|(_ & Hok)])].
    + discriminate.
    + now contradiction Hn.
    + split; [apply in_or_app; right; now apply wait_in | eauto].
Qed.

Lemma exit_zero_means_success_witness :
  f_version (flags (w_session false false (Returns (Ok 17)))) = true
  \/ (In EvShimWait (trace_of (w_session false false (Returns (Ok 17))))
      /\ exists N, shim_wait (w_session false false (Returns (Ok 17))) = Returns (Ok N)
           /\ (N = 0 \/ f_proxyExitCode (flags (w_session false false (Returns (Ok 17)))) = false)).
Proof.
  apply (exit_zero_means_success (w_session false false (Returns (Ok 17)))).
  reflexivity.
Defined.

(** ** The connection to the agent *)

Lemma prelude_not_in (e : event) l :
  forallb is_prelude l = true -> is_prelude e = false -> ~ In e l.
Proof.
  intros Hl He Hin. rewrite forallb_forall in Hl. apply Hl in Hin. congruence.
Qed.

Lemma empty_config_false (w : World) :
  empty_config w = false ->
  f_agent (flags w) <> EmptyString
  /\ f_container (flags w) <> EmptyString
  /\ f_execID (flags w) <> EmptyString.
Proof.
  unfold empty_config. intros H.
  apply orb_false_elim in H as [H H3]. apply orb_false_elim in H as [H1 H2].
  rewrite String.eqb_neq in H1, H2, H3. auto.
Qed.

Lemma setup_connects_once (w : World) (s : State) :
  defers s = [] ->
  exists ev, events (snd (main_rest (realMain_setup w s))) = (events s ++ ev)%list
    /\ (List.filter is_connect ev = []
        \/ List.filter is_connect ev
           = [EvNewShim (f_agent (flags w)) (f_container (flags w)) (f_execID (flags w))]).
Proof.
  intros Hd. each_setup w s r.
  all: eexists; (split; [reflexivity|]); cbn; auto.
Qed.

(** [newShim] is called at most once in a run, with the agent address,
    the container ID and the exec ID of the command line, and only when
    the version flag is unset, the three are not empty and the log level
    is one the logger knows. *)
Theorem connect_only_validated (w : World) (a c e : string) :
  In (EvNewShim a c e) (trace_of w) ->
  (a = f_agent (flags w) /\ c = f_container (flags w) /\ e = f_execID (flags w))
  /\ (a <> EmptyString /\ c <> EmptyString /\ e <> EmptyString)
  /\ f_version (flags w) = false
  /\ (exists l, ParseLevel w (f_log (flags w)) = Ok l)
  /\ count is_connect (trace_of w) = 1%nat.
Proof.
  intros Hin.
  destruct (run_early_or_setup w)
    as [(pre & c0 & Hp & Hc & Hv & Hx & Ht)|(Hv & Hc & l & s & Hl & Hr & Hd & Hp & HL)].
  - exfalso. rewrite Ht in Hin. apply in_app_or in Hin as [Hin|Hin].
    + revert Hin. now apply prelude_not_in.
    + cbn in Hin. intuition discriminate.
  - unfold trace_of, final, count in *. rewrite Hr in *.
    destruct (setup_connects_once w s Hd) as (ev & Eev & Hev). rewrite Eev in *.
    rewrite filter_app, (prelude_filter _ (events s)) by (assumption || prelude_side).
    cbn [app].
    apply in_app_or in Hin as [Hin|Hin];
      [exfalso; revert Hin; now apply prelude_not_in|].
    assert (Hf : In (EvNewShim a c e) (List.filter is_connect ev))
      by (apply filter_In; auto).
    destruct Hev as [Hev|Hev]; rewrite Hev in *; [contradiction|].
    destruct Hf as [Hf|[]]. injection Hf as <- <- <-.
    pose proof (empty_config_false w Hc). eauto 10.
Qed.

Lemma connect_only_validated_witness :
  count is_connect (trace_of (w_session true true (Returns (Ok 17)))) = 1%nat.
Proof.
  refine (proj2 (proj2 (proj2 (proj2
            (connect_only_validated (w_session true true (Returns (Ok 17)))
               "sock://A" "c1" "e1" _))))).
  vm_compute; tauto.
Defined.

Lemma setup_connect_error (w : World) (s : State) (err : error) :
  defers s = [] ->
  newShim w (f_agent (flags w)) (f_container (flags w)) (f_execID (flags w))
  = Returns (Err err) ->
  exists ev, events (snd (main_rest (realMain_setup w s))) = (events s ++ ev)%list
    /\ (existsb is_connect ev = true ->
        fst (main_rest (realMain_setup w s)) = Exited exitFailure
        /\ ev = [EvCreateTracer shimName;
                 EvStartSpan "realMain";
                 EvNewShim (f_agent (flags w)) (f_container (flags w)) (f_execID (flags w));
                 EvLog ErrorLevel
                   ((match shimLog s with Some f => f | None => [] end)
                    ++ [("error", FStr err)])%list
                   "failed to create new shim";
                 EvSpanFinish "realMain";
                 EvStopTracing;
                 EvExit exitFailure]).
Proof.
  intros Hd Hw. each_setup w s r.
  all: eexists; (split; [reflexivity|]); cbn; try discriminate; intros _.
  all: split; reflexivity.
Qed.

(** When [newShim] fails, the error is logged with the fields of the
    shim, the root span is finished, the tracer is stopped and the
    process exits with [exitFailure]: the terminal is left alone and no
    signal handling, stdio proxying or remote wait is started. *)
Theorem connect_failure (w : World) (err : error) :
  In (EvNewShim (f_agent (flags w)) (f_container (flags w)) (f_execID (flags w)))
     (trace_of w) ->
  newShim w (f_agent (flags w)) (f_container (flags w)) (f_execID (flags w))
  = Returns (Err err) ->
  exit_status w = Exited exitFailure
  /\ count is_setup (trace_of w) = 0%nat
  /\ count is_session (trace_of w) = 0%nat
  /\ exists pre,
       forallb is_prelude pre = true
       /\ trace_of w
          = (pre ++ [EvCreateTracer shimName;
                     EvStartSpan "realMain";
                     EvNewShim (f_agent (flags w)) (f_container (flags w)) (f_execID (flags w));
                     EvLog ErrorLevel (shim_fields w ++ [("error", FStr err)])
                       "failed to create new shim";
                     EvSpanFinish "realMain";
                     EvStopTracing;
                     EvExit exitFailure])%list.
Proof.
  intros Hin Hw. apply (In_existsb is_connect) in Hin; [|reflexivity].
  revert Hin.
  destruct (run_early_or_setup w)
    as [(pre & c0 & Hp & Hc & Hv & Hx & Ht)|(Hv & Hc & l & s & Hl & Hr & Hd & Hp & HL)].
  - rewrite Ht, existsb_app, (prelude_existsb _ pre) by (assumption || prelude_side).
    cbn. discriminate.
  - unfold trace_of, final, exit_status, count. rewrite Hr.
    destruct (setup_connect_error w s err Hd Hw) as (ev & -> & Hev).
    rewrite existsb_app, (prelude_existsb _ (events s)) by (assumption || prelude_side).
    cbn [orb]. intros Hex. destruct (Hev Hex) as (H1 & ->).
    rewrite HL. split; [assumption|].
    rewrite !filter_app, !(prelude_filter _ (events s)) by (assumption || prelude_side).
    split; [reflexivity|]. split; [reflexivity|].
    exists (events s). auto.
Qed.

Lemma connect_failure_witness :
  exit_status w_refused = Exited 1
  /\ count is_setup (trace_of w_refused) = 0%nat.
Proof.
  refine (let H := connect_failure w_refused "connection refused" _ _ in
          conj (proj1 H) (proj1 (proj2 H))).
  - vm_compute; tauto.
  - reflexivity.
Defined.

(** ** The logger and the tracer *)

(** A log level that [logrus.ParseLevel] rejects ends the run before the
    tracer and the agent are touched: [shimLog] is set by then, so the one
    error entry carries the fields of the shim; the level is not set and
    nothing is announced. *)
Theorem invalid_log_level (w : World) (e : error) :
  f_version (flags w) = false ->
  empty_config w = false ->
  ParseLevel w (f_log (flags w)) = Err e ->
  exit_status w = Exited exitFailure
  /\ shimLog (final w) = Some (shim_fields w)
  /\ trace_of w
     = (threads_calls w
        ++ [EvLog ErrorLevel
              (shim_fields w
               ++ [("error", FStr e); ("loglevel", FStr (f_log (flags w)))])
              "invalid log level";
            EvStopTracing; EvExit exitFailure])%list.
Proof.
  intros Hv Hc Hl.
  destruct (run_cases w)
    as [(Hv' & _)|[(_ & Hc' & _)|[(_ & _ & e' & Hl' & Hx & HL & Ht)
       |(_ & _ & l & s & Hl' & _)]]]; try congruence.
  assert (e' = e) by congruence. subst e'. auto.
Qed.

Lemma invalid_log_level_witness :
  exit_status w_bad_level = Exited 1
  /\ trace_of w_bad_level
     = [EvGOMAXPROCS 6;
        EvLog ErrorLevel
          (shim_fields w_bad_level
           ++ [("error", FStr "not a valid logrus Level"); ("loglevel", FStr "verbose")])%list
          "invalid log level";
        EvStopTracing; EvExit 1].
Proof.
  refine (let H := invalid_log_level w_bad_level "not a valid logrus Level" _ _ _ in
          conj (proj1 H) (proj2 (proj2 H))).
  - reflexivity.
  - reflexivity.
  - reflexivity.
Defined.

Lemma setup_tracer_error (w : World) (s : State) (e : error) :
  defers s = [] ->
  createTracer w shimName = Returns (Err e) ->
  exists ev, events (snd (main_rest (realMain_setup w s))) = (events s ++ ev)%list
    /\ fst (main_rest (realMain_setup w s)) = Exited 1
    /\ ev = [EvCreateTracer shimName;
             EvLog FatalLevel
               ((match shimLog s with Some f => f | None => [] end)
                ++ [("error", FStr e)])%list
               "failed to setup tracing";
             EvExit 1].
Proof.
  intros Hd Hw. each_setup w s r.
  all: eexists; (split; [reflexivity|]); split; reflexivity.
Qed.

(** When the tracer cannot be set up, the fatal log entry is the last
    call but the exit with 1: no span is started, no connection to the
    agent is attempted, the tracer is not stopped and the recovery hook of
    [main] does not run. *)
Theorem tracer_failure_is_fatal (w : World) (e : error) :
  f_version (flags w) = false ->
  empty_config w = false ->
  (exists l, ParseLevel w (f_log (flags w)) = Ok l) ->
  createTracer w shimName = Returns (Err e) ->
  exit_status w = Exited 1
  /\ count is_connect (trace_of w) = 0%nat
  /\ exists pre,
       forallb is_prelude pre = true
       /\ trace_of w
          = (pre ++ [EvCreateTracer shimName;
                     EvLog FatalLevel (shim_fields w ++ [("error", FStr e)])
                       "failed to setup tracing";
                     EvExit 1])%list.
Proof.
  intros Hv Hc (l & Hl) Hw.
  destruct (run_cases w)
    as [(Hv' & _)|[(_ & Hc' & _)|[(_ & _ & e' & Hl' & _)
       |(_ & _ & l' & s & Hl' & Hr & Hd & Hp & HL & Hev)]]]; try congruence.
  unfold exit_status, trace_of, final, count. rewrite Hr.
  destruct (setup_tracer_error w s e Hd Hw) as (ev & -> & Hx & ->).
  rewrite HL. split; [assumption|].
  rewrite filter_app, (prelude_filter _ (events s)) by (assumption || prelude_side).
  split; [reflexivity|]. exists (events s). auto.
Qed.

Lemma tracer_failure_is_fatal_witness :
  exit_status w_tracer_fails = Exited 1
  /\ count is_connect (trace_of w_tracer_fails) = 0%nat.
Proof.
  refine (let H := tracer_failure_is_fatal w_tracer_fails "no tracer" _ _ _ _ in
          conj (proj1 H) (proj1 (proj2 H))).
  - reflexivity.
  - reflexivity.
  - exists WarnLevel. reflexivity.
  - reflexivity.
Defined.

(** ** Spans, signals and the deferred calls *)

Lemma setup_pairs (w : World) (s : State) :
  defers s = [] ->
  exists ev, events (snd (main_rest (realMain_setup w s))) = (events s ++ ev)%list
    /\ count is_root_finish ev = count is_root_start ev
    /\ (count is_root_start ev <= 1)%nat
    /\ count is_signalStop ev
       = match handleSignals w with
         | Returns _ => count is_handleSignals ev
         | Panics _ => 0%nat
         end
    /\ (count is_handleSignals ev <= 1)%nat.
Proof.
  intros Hd. each_setup w s r.
  all: eexists; (split; [reflexivity|]); cbn;
    repeat match goal with
           | |- context [match ?x with Returns _ => _ | Panics _ => _ end] =>
               destruct x
           end;
    repeat split; lia.
Qed.

(** The root span is finished as often as it is started, at most once:
    on every return of [realMain] and on a panic of any of its calls. *)
Theorem root_span_finished (w : World) :
  count is_root_finish (trace_of w) = count is_root_start (trace_of w)
  /\ (count is_root_start (trace_of w) <= 1)%nat.
Proof.
  destruct (run_early_or_setup w)
    as [(pre & c0 & Hp & Hc & Hv & Hx & Ht)|(Hv & Hc & l & s & Hl & Hr & Hd & Hp & HL)].
  - unfold count. rewrite Ht, !filter_app.
    rewrite !(prelude_filter _ pre) by (assumption || prelude_side). cbn. lia.
  - unfold trace_of, final. rewrite Hr.
    destruct (setup_pairs w s Hd) as (ev & -> & H1 & H2 & _).
    unfold count in *. rewrite !filter_app.
    rewrite !(prelude_filter _ (events s)) by (assumption || prelude_side).
    cbn [app]. auto.
Qed.

(** [signal.Stop] is called once for the channel that [handleSignals]
    has returned, on a return and on a panic alike, and never when
    [handleSignals] itself has panicked. *)
Theorem signals_stopped (w : World) :
  count is_signalStop (trace_of w)
  = match handleSignals w with
    | Returns _ => count is_handleSignals (trace_of w)
    | Panics _ => 0%nat
    end
  /\ (count is_handleSignals (trace_of w) <= 1)%nat.
Proof.
  destruct (run_early_or_setup w)
    as [(pre & c0 & Hp & Hc & Hv & Hx & Ht)|(Hv & Hc & l & s & Hl & Hr & Hd & Hp & HL)].
  - unfold count. rewrite Ht, !filter_app.
    rewrite !(prelude_filter _ pre) by (assumption || prelude_side). cbn.
    destruct (handleSignals w); auto.
  - unfold trace_of, final. rewrite Hr.
    destruct (setup_pairs w s Hd) as (ev & -> & _ & _ & H1 & H2).
    unfold count in *. rewrite !filter_app.
    rewrite !(prelude_filter _ (events s)) by (assumption || prelude_side).
    cbn [app]. auto.
Qed.

Lemma setup_proxy_panic (w : World) (s : State) (v : string) :
  defers s = [] ->
  proxyStdio w (f_terminal (flags w)) = Panics v ->
  exists ev, events (snd (main_rest (realMain_setup w s))) = (events s ++ ev)%list
    /\ (existsb is_proxy ev = true ->
        fst (main_rest (realMain_setup w s)) = Panicking v
        /\ count is_stdio_start ev = 1%nat
        /\ count is_stdio_finish ev = 0%nat
        /\ count is_root_finish ev = 1%nat
        /\ count is_wait ev = 0%nat).
Proof.
  intros Hd Hw. each_setup_panic w s r.
  all: eexists; (split; [reflexivity|]); cbn; try discriminate; intros _.
  all: repeat split.
Qed.

(** [stdioSpan.Finish] is not deferred: when [proxyStdio] panics, the
    span of the stdio phase is left unfinished, while the deferred finish
    of the root span still runs; the remote wait is not issued. *)
Theorem stdio_span_lost_on_panic (w : World) (v : string) :
  In (EvProxyStdio (f_terminal (flags w))) (trace_of w) ->
  proxyStdio w (f_terminal (flags w)) = Panics v ->
  exit_status w = Panicking v
  /\ count is_stdio_start (trace_of w) = 1%nat
  /\ count is_stdio_finish (trace_of w) = 0%nat
  /\ count is_root_finish (trace_of w) = 1%nat
  /\ count is_wait (trace_of w) = 0%nat.
Proof.
  intros Hin Hw. apply (In_existsb is_proxy) in Hin; [|reflexivity].
  revert Hin.
  destruct (run_early_or_setup w)
    as [(pre & c0 & Hp & Hc & Hv & Hx & Ht)|(Hv & Hc & l & s & Hl & Hr & Hd & Hp & HL)].
  - rewrite Ht, existsb_app, (prelude_existsb _ pre) by (assumption || prelude_side).
    cbn. discriminate.
  - unfold trace_of, final, exit_status, count. rewrite Hr.
    destruct (setup_proxy_panic w s v Hd Hw) as (ev & -> & Hev).
    rewrite existsb_app, (prelude_existsb _ (events s)) by (assumption || prelude_side).
    cbn [orb]. intros Hex. unfold count in Hev.
    rewrite !filter_app, !(prelude_filter _ (events s)) by (assumption || prelude_side).
    exact (Hev Hex).
Qed.

Lemma stdio_span_lost_on_panic_witness :
  exit_status w_proxy_panics = Panicking "nil stream"
  /\ count is_stdio_finish (trace_of w_proxy_panics) = 0%nat.
Proof.
  refine (let H := stdio_span_lost_on_panic w_proxy_panics "nil stream" _ _ in
          conj (proj1 H) (proj1 (proj2 (proj2 H)))).
  - vm_compute; tauto.
  - reflexivity.
Defined.

Lemma last_app_cons {A} (l1 l2 : list A) (x d : A) :
  List.last l2 d = x -> l2 <> [] -> List.last (l1 ++ l2) d = x.
Proof.
  intros H Hne. induction l1 as [|y l1 IH]; [exact H|].
  cbn [app]. destruct (l1 ++ l2)%list eqn:E.
  - apply app_eq_nil in E as [_ E]. contradiction.
  - rewrite <- IH. reflexivity.
Qed.

Lemma setup_panics (w : World) (s : State) :
  defers s = [] ->
  exists ev, events (snd (main_rest (realMain_setup w s))) = (events s ++ ev)%list
    /\ forall v, fst (main_rest (realMain_setup w s)) = Panicking v ->
         ev <> []
         /\ List.last ev EvStopTracing = EvHandlePanic v
         /\ List.filter is_panic ev = [EvPanic v]
         /\ List.filter is_stopTracing ev = []
         /\ List.filter is_exit ev = [].
Proof.
  intros Hd. each_setup w s r.
  all: eexists; (split; [reflexivity|]); cbn; intros v' Hv';
    try discriminate; injection Hv' as <-.
  all: repeat split; discriminate.
Qed.

(** When a call of [realMain] panics with [v], the run makes no further
    call of the body: the deferred calls run, the recovery hook of [main]
    is the last call and is given [v]; [main] neither stops the tracer
    nor calls [os.Exit] itself. *)
Theorem panic_reaches_handler (w : World) (v : string) :
  exit_status w = Panicking v ->
  List.last (trace_of w) EvStopTracing = EvHandlePanic v
  /\ List.filter is_panic (trace_of w) = [EvPanic v]
  /\ count is_stopTracing (trace_of w) = 0%nat
  /\ count is_exit (trace_of w) = 0%nat.
Proof.
  intros H.
  destruct (run_early_or_setup w)
    as [(pre & c0 & Hp & Hc & Hv & Hx & Ht)|(Hv & Hc & l & s & Hl & Hr & Hd & Hp & HL)].
  - rewrite Hx in H. discriminate.
  - unfold trace_of, final, exit_status, count in *. rewrite Hr in *.
    destruct (setup_panics w s Hd) as (ev & -> & Hev).
    destruct (Hev v H) as (Hne & Hlast & Hpn & Hst & Hex).
    rewrite !filter_app, !(prelude_filter _ (events s)) by (assumption || prelude_side).
    rewrite Hpn, Hst, Hex. split; [now apply last_app_cons | auto].
Qed.

Lemma panic_reaches_handler_witness :
  List.last (trace_of (w_session true true (Panics "boom"))) EvStopTracing
  = EvHandlePanic "boom".
Proof.
  refine (proj1 (panic_reaches_handler (w_session true true (Panics "boom")) "boom" _)).
  reflexivity.
Defined.




(** ** The terminal, the threads and the debug mode *)

Lemma setup_no_terminal (w : World) (s : State) :
  defers s = [] ->
  f_terminal (flags w) = false ->
  exists ev, events (snd (main_rest (realMain_setup w s))) = (events s ++ ev)%list
    /\ List.filter is_setup ev = []
    /\ List.filter is_acquire ev = []
    /\ List.filter is_restore ev = [].
Proof.
  intros Hd Ht. each_setup w s r.
  all: eexists; (split; [reflexivity|]); repeat split.
Qed.

(** Without the terminal flag the terminal is left alone: raw mode is
    neither requested nor restored, whatever else happens in the run. *)
Theorem terminal_untouched (w : World) :
  f_terminal (flags w) = false ->
  count is_setup (trace_of w) = 0%nat
  /\ count is_acquire (trace_of w) = 0%nat
  /\ count is_restore (trace_of w) = 0%nat.
Proof.
  intros Hterm.
  destruct (run_early_or_setup w)
    as [(pre & c0 & Hp & Hc & Hv & Hx & Ht)|(Hv & Hc & l & s & Hl & Hr & Hd & Hp & HL)].
  - unfold count. rewrite Ht, !filter_app.
    rewrite !(prelude_filter _ pre) by (assumption || prelude_side). cbn. auto.
  - unfold trace_of, final, count. rewrite Hr.
    destruct (setup_no_terminal w s Hd Hterm) as (ev & -> & H1 & H2 & H3).
    rewrite !filter_app, H1, H2, H3.
    rewrite !(prelude_filter _ (events s)) by (assumption || prelude_side).
    cbn. auto.
Qed.

Lemma terminal_untouched_witness :
  count is_setup (trace_of (w_session false true (Returns (Ok 17)))) = 0%nat
  /\ count is_restore (trace_of (w_session false true (Returns (Ok 17)))) = 0%nat.
Proof.
  refine (let H := terminal_untouched (w_session false true (Returns (Ok 17))) _ in
          conj (proj1 H) (proj2 (proj2 H))).
  reflexivity.
Defined.

Lemma setup_no_gomaxprocs (w : World) (s : State) :
  defers s = [] ->
  exists ev, events (snd (main_rest (realMain_setup w s))) = (events s ++ ev)%list
    /\ List.filter is_gomaxprocs ev = []
    /\ List.filter is_announce ev = [].
Proof.
  intros Hd. each_setup w s r.
  all: eexists; (split; [reflexivity|]); repeat split.
Qed.

Lemma threads_calls_leaves (w : World) :
  Getenv w "GOMAXPROCS" <> EmptyString \/ NumCPU w <= maxThreads ->
  threads_calls w = [].
Proof.
  intros H. unfold threads_calls. now rewrite setThreads_leaves.
Qed.

(** With GOMAXPROCS set in the environment, or with no more than
    [maxThreads] CPUs, the run never calls [runtime.GOMAXPROCS]: the
    setting of the runtime is the same at the end of the run. *)
Theorem threads_left_alone (w : World) :
  Getenv w "GOMAXPROCS" <> EmptyString \/ NumCPU w <= maxThreads ->
  count is_gomaxprocs (trace_of w) = 0%nat
  /\ gomaxprocs (final w) = InitialProcs w.
Proof.
  intros H. pose proof (threads_calls_leaves w H) as Hth.
  split.
  - unfold count.
    destruct (run_cases w)
      as [(_ & _ & Ht)|[(_ & _ & _ & Ht)|[(_ & _ & e & _ & _ & _ & Ht)
         |(_ & _ & l & s & _ & Hr & Hd & Hp & HL & Hev)]]].
    + rewrite Ht, Hth. reflexivity.
    + rewrite Ht, Hth. reflexivity.
    + rewrite Ht, Hth. reflexivity.
    + unfold trace_of, final. rewrite Hr.
      destruct (setup_no_gomaxprocs w s Hd) as (ev & -> & Hg & _).
      rewrite filter_app, Hg, Hev, Hth. cbn [app List.filter is_gomaxprocs].
      rewrite filter_app. unfold hook_calls. destruct (NewSyslogHook w); reflexivity.
  - assert (Hs : forall s, setThreads w s = (Normal tt, s))
      by (intros; now apply setThreads_leaves).
    unfold final. rewrite run_unfold.
    remember (realMain_body w (init_state w)) as r eqn:Hr.
    unfold realMain_body in Hr. unfold bind at 1 in Hr. rewrite Hs in Hr.
    open_world w. unfold_prelude Hr. simpl_in Hr. paths_in Hr.
    all: subst r; finish_prelude setup_keeps; reflexivity.
Qed.

Lemma threads_left_alone_witness :
  count is_gomaxprocs (trace_of w_env_set) = 0%nat
  /\ gomaxprocs (final w_env_set) = 32.
Proof.
  apply (threads_left_alone w_env_set).
  left. discriminate.
Defined.

(** At the end of every run, [debug] is the debug flag, or true when the
    version flag is unset and the log level is "debug"; [crashOnError] is
    on exactly when the version flag is unset and [debug] is on. *)
Theorem debug_mode_final (w : World) :
  debug (final w)
  = (negb (f_version (flags w)) && String.eqb (f_log (flags w)) "debug")
    || f_debug (flags w)
  /\ crashOnError (final w)
     = negb (f_version (flags w)) && effective_debug w.
Proof.
  unfold final, effective_debug. rewrite run_unfold.
  each_prelude w r; finish_prelude setup_keeps; split; reflexivity.
Qed.

(** ** What is logged *)

Lemma threads_calls_shape (w : World) :
  threads_calls w = [] \/ threads_calls w = [EvGOMAXPROCS maxThreads].
Proof.
  unfold threads_calls, setThreads, runtime_GOMAXPROCS.
  destruct (String.eqb _ _); [|now left].
  destruct (NumCPU w >? maxThreads); [now right | now left].
Qed.

Lemma hook_calls_shape (w : World) :
  hook_calls w = [] \/ hook_calls w = [EvAddHook].
Proof. unfold hook_calls. destruct (NewSyslogHook w); auto. Qed.

Lemma setup_logs_with (w : World) (s : State) :
  defers s = [] ->
  exists ev, events (snd (main_rest (realMain_setup w s))) = (events s ++ ev)%list
    /\ Forall (logged_with (match shimLog s with Some f => f | None => [] end)) ev.
Proof.
  intros Hd. each_setup w s r.
  all: eexists; (split; [reflexivity|]).
  all: repeat (constructor; [cbn; first [exact I | eexists; reflexivity]|]);
    constructor.
Qed.

(** Every log entry of a run carries the fields that [initLogger] gives
    [shimLog] (name, pid, source, container, exec-id) before its own,
    but for the one entry that reports an incomplete command line, which
    is logged before the logger is initialised. *)
Theorem logs_carry_shim_fields (w : World) (l : Level) (fs : Fields) (msg : string) :
  In (EvLog l fs msg) (trace_of w) ->
  msg = "container ID, exec ID and agent socket endpoint must be set"
  \/ exists extra, fs = (shim_fields w ++ extra)%list.
Proof.
  assert (Hth : ~ In (EvLog l fs msg) (threads_calls w)).
  { destruct (threads_calls_shape w) as [-> | ->]; cbn; intuition discriminate. }
  assert (Hhk : ~ In (EvLog l fs msg) (hook_calls w)).
  { destruct (hook_calls_shape w) as [-> | ->]; cbn; intuition discriminate. }
  intros Hin.
  destruct (run_cases w)
    as [(_ & _ & Ht)|[(_ & _ & _ & Ht)|[(_ & _ & e & _ & _ & _ & Ht)
       |(_ & _ & l0 & s & _ & Hr & Hd & Hp & HL & Hev)]]].
  - rewrite Ht in Hin. apply in_app_or in Hin as [Hin|Hin]; [contradiction|].
    destruct Hin as [Hin|[Hin|[Hin|[]]]]; discriminate.
  - rewrite Ht in Hin. apply in_app_or in Hin as [Hin|Hin]; [contradiction|].
    destruct Hin as [Hin|[Hin|[Hin|[]]]]; try discriminate.
    injection Hin as _ _ <-. now left.
  - rewrite Ht in Hin. apply in_app_or in Hin as [Hin|Hin]; [contradiction|].
    destruct Hin as [Hin|[Hin|[Hin|[]]]]; try discriminate.
    injection Hin as _ <- _. right. eexists; reflexivity.
  - unfold trace_of, final in Hin. rewrite Hr in Hin.
    destruct (setup_logs_with w s Hd) as (ev & Eev & Hall). rewrite Eev, HL in *.
    apply in_app_or in Hin as [Hin|Hin].
    + rewrite Hev in Hin. apply in_app_or in Hin as [Hin|Hin]; [contradiction|].
      destruct Hin as [Hin|Hin]; [discriminate|].
      apply in_app_or in Hin as [Hin|Hin]; [contradiction|].
      destruct Hin as [Hin|[]]. injection Hin as _ <- _. right. eexists; reflexivity.
    + rewrite Forall_forall in Hall. right. exact (Hall _ Hin).
Qed.

Lemma logs_carry_shim_fields_witness :
  "failed waiting for process"
  = "container ID, exec ID and agent socket endpoint must be set"
  \/ exists extra,
       (shim_fields (w_session false true (Returns (Err "agent unavailable")))
        ++ [("error", FStr "agent unavailable"); ("exec-id", FStr "e1")])%list
       = (shim_fields (w_session false true (Returns (Err "agent unavailable")))
          ++ extra)%list.
Proof.
  apply (logs_carry_shim_fields
           (w_session false true (Returns (Err "agent unavailable"))) ErrorLevel).
  vm_compute; tauto.
Defined.

Lemma setup_starts_with_tracer (w : World) (s : State) :
  defers s = [] ->
  exists ev, events (snd (main_rest (realMain_setup w s)))
             = (events s ++ EvCreateTracer shimName :: ev)%list.
Proof.
  intros Hd. each_setup w s r.
  all: eexists; reflexivity.
Qed.

(** With a complete command line and a log level the logger knows, the
    logger is set up before anything else is called: the level is set,
    the syslog hook is added when it could be made and skipped when not,
    and the one "announce" entry reports the command line, its debug
    field being true under [-log debug] as under [-debug]; the tracer is
    created next. *)
Theorem logger_announces (w : World) (l : Level) :
  f_version (flags w) = false ->
  empty_config w = false ->
  ParseLevel w (f_log (flags w)) = Ok l ->
  (exists rest,
     trace_of w
     = (threads_calls w
        ++ EvSetLevel l :: hook_calls w
        ++ EvLog InfoLevel (shim_fields w ++ announce_fields w) "announce"
           :: EvCreateTracer shimName :: rest)%list)
  /\ count is_announce (trace_of w) = 1%nat
  /\ In ("debug", FBool (String.eqb (f_log (flags w)) "debug" || f_debug (flags w)))
        (announce_fields w).
Proof.
  intros Hv Hc Hl.
  destruct (run_cases w)
    as [(Hv' & _)|[(_ & Hc' & _)|[(_ & _ & e' & Hl' & _)
       |(_ & _ & l' & s & Hl' & Hr & Hd & Hp & HL & Hev)]]]; try congruence.
  assert (l' = l) by congruence. subst l'.
  unfold trace_of, final, count. rewrite Hr.
  split; [|split].
  - destruct (setup_starts_with_tracer w s Hd) as (ev & ->).
    exists ev. rewrite Hev, <- !app_assoc. cbn [app]. rewrite <- !app_assoc. reflexivity.
  - destruct (setup_no_gomaxprocs w s Hd) as (ev & -> & _ & Ha).
    rewrite filter_app, Ha, Hev, app_nil_r.
    destruct (threads_calls_shape w) as [-> | ->];
      destruct (hook_calls_shape w) as [-> | ->]; reflexivity.
  - unfold announce_fields, effective_debug. cbn. auto.
Qed.

Lemma logger_announces_witness :
  count is_announce (trace_of w_log_debug) = 1%nat
  /\ In ("debug", FBool true) (announce_fields w_log_debug).
Proof.
  refine (let H := logger_announces w_log_debug DebugLevel _ _ _ in
          conj (proj1 (proj2 H)) (proj2 (proj2 H))).
  - reflexivity.
  - reflexivity.
  - reflexivity.
Defined.

(** ** The order of the clean-up *)

Lemma setup_cleanup (w : World) (s : State) (r : result Z) :
  defers s = [] ->
  shim_wait w = Returns r ->
  exists ev, events (snd (main_rest (realMain_setup w s))) = (events s ++ ev)%list
    /\ (existsb is_wait ev = true ->
        exists logs c,
          after is_wait ev
          = (logs ++ EvSignalStop :: restore_calls w
             ++ [EvSpanFinish "realMain"; EvStopTracing; EvExit c])%list
          /\ forallb is_log logs = true
          /\ (List.length logs <= 1)%nat
          /\ fst (main_rest (realMain_setup w s)) = Exited c).
Proof.
  intros Hd Hw. unfold restore_calls. each_setup w s r0.
  all: eexists; (split; [reflexivity|]); cbn; try discriminate; intros _.
  all: first [ exists (@nil event); eexists; repeat split; cbn; lia
             | eexists [_]; eexists; repeat split; cbn; lia ].
Qed.

(** Once the remote wait has returned, with a code or with an error, the
    run logs at most one entry and then undoes what it has set up in the
    reverse order: [signal.Stop], the restore of the terminal when raw
    mode was acquired, the finish of the root span, [stopTracing], and
    [os.Exit] last. *)
Theorem cleanup_order (w : World) (r : result Z) :
  In EvShimWait (trace_of w) ->
  shim_wait w = Returns r ->
  exists logs c,
    after is_wait (trace_of w)
    = (logs ++ EvSignalStop :: restore_calls w
       ++ [EvSpanFinish "realMain"; EvStopTracing; EvExit c])%list
    /\ forallb is_log logs = true
    /\ (List.length logs <= 1)%nat
    /\ exit_status w = Exited c.
Proof.
  intros Hin Hw. apply (In_existsb is_wait) in Hin; [|reflexivity].
  revert Hin.
  destruct (run_early_or_setup w)
    as [(pre & c0 & Hp & Hc & Hv & Hx & Ht)|(Hv & Hc & l & s & Hl & Hr & Hd & Hp & HL)].
  - rewrite Ht, existsb_app, (prelude_existsb _ pre) by (assumption || prelude_side).
    cbn. discriminate.
  - unfold trace_of, final, exit_status. rewrite Hr.
    destruct (setup_cleanup w s r Hd Hw) as (ev & -> & Hev).
    rewrite existsb_app, (prelude_existsb _ (events s)) by (assumption || prelude_side).
    cbn [orb]. intros Hex.
    rewrite prelude_after by (assumption || prelude_side). exact (Hev Hex).
Qed.

Lemma cleanup_order_witness :
  exists logs c,
    after is_wait (trace_of (w_session true true (Returns (Ok 17))))
    = (logs ++ [EvSignalStop; EvRestoreTerminal 0 (Termios 7);
                EvSpanFinish "realMain"; EvStopTracing; EvExit c])%list
    /\ forallb is_log logs = true
    /\ (List.length logs <= 1)%nat
    /\ exit_status (w_session true true (Returns (Ok 17))) = Exited c.
Proof.
  apply (cleanup_order (w_session true true (Returns (Ok 17))) (Ok 17)).
  - vm_compute; tauto.
  - reflexivity.
Defined.

(** ** What the session needs *)

Lemma setup_session_ready (w : World) (s : State) :
  defers s = [] ->
  exists ev, events (snd (main_rest (realMain_setup w s))) = (events s ++ ev)%list
    /\ (existsb is_session ev = true ->
        (exists x, createTracer w shimName = Returns (Ok x))
        /\ (exists x, newShim w (f_agent (flags w)) (f_container (flags w))
                        (f_execID (flags w)) = Returns (Ok x))
        /\ (f_terminal (flags w) = true ->
            exists t, setupTerminal w (StdinFd w) = Returns (Ok t)
                      /\ List.filter is_acquire ev = [EvRawMode (StdinFd w) t])
        /\ count is_root_start ev = 1%nat).
Proof.
  intros Hd. each_setup w s r.
  all: eexists; (split; [reflexivity|]); cbn; try discriminate; intros _.
  all: repeat split; try discriminate; eauto.
Qed.

(** Signal handling, stdio proxying and the remote wait are started only
    in a run in which the tracer was created, the root span started and
    [newShim] has returned a shim, and, with the terminal flag, only once
    [setupTerminal] has put the terminal in raw mode. *)
Theorem session_needs_setup (w : World) (e : event) :
  is_session e = true ->
  In e (trace_of w) ->
  (exists x, createTracer w shimName = Returns (Ok x))
  /\ (exists x, newShim w (f_agent (flags w)) (f_container (flags w))
                  (f_execID (flags w)) = Returns (Ok x))
  /\ (f_terminal (flags w) = true ->
      exists t, setupTerminal w (StdinFd w) = Returns (Ok t)
                /\ List.filter is_acquire (trace_of w) = [EvRawMode (StdinFd w) t])
  /\ count is_root_start (trace_of w) = 1%nat.
Proof.
  intros He Hin. apply (In_existsb is_session) in Hin; [|assumption].
  revert Hin.
  destruct (run_early_or_setup w)
    as [(pre & c0 & Hp & Hc & Hv & Hx & Ht)|(Hv & Hc & l & s & Hl & Hr & Hd & Hp & HL)].
  - rewrite Ht, existsb_app, (prelude_existsb _ pre) by (assumption || prelude_side).
    cbn. discriminate.
  - unfold trace_of, final, count. rewrite Hr.
    destruct (setup_session_ready w s Hd) as (ev & -> & Hev).
    rewrite existsb_app, (prelude_existsb _ (events s)) by (assumption || prelude_side).
    cbn [orb]. intros Hex. unfold count in Hev.
    rewrite !filter_app, !(prelude_filter _ (events s)) by (assumption || prelude_side).
    exact (Hev Hex).
Qed.

Lemma session_needs_setup_witness :
  exists t, setupTerminal (w_session true true (Returns (Ok 17))) 0 = Returns (Ok t)
            /\ List.filter is_acquire (trace_of (w_session true true (Returns (Ok 17))))
               = [EvRawMode 0 t].
Proof.
  refine (proj1 (proj2 (proj2
            (session_needs_setup (w_session true true (Returns (Ok 17)))
               EvHandleSignals _ _))) _).
  - reflexivity.
  - vm_compute; tauto.
  - reflexivity.
Defined.
